(** * Machine monitoring: authorization and visibility model

    A shallow embedding of the Supabase schema, its row-level-security
    policies (the SQL migrations) and the React data loaders that query it.

    - A table is a [list] of rows in storage order; a row is a record whose
      fields carry the column names.
    - [uuid] and [text] columns are [string]s, [timestamptz] is a [Z]
      (microseconds), a nullable column is an [option].
    - [auth.uid()] is an [option uuid]: [None] is the [anon] role, [Some u]
      the [authenticated] role signed in as [u].
    - A statement is a function from the database to [Error + Database];
      a policy is a boolean function of the database, the caller and a row. *)

From Stdlib Require Import String List ZArith Bool Lia Permutation Sorted.
From Stdlib Require Import DecimalString.
Import ListNotations.
Local Open Scope string_scope.
Local Open Scope list_scope.

(** ** Column types *)

Definition uuid := string.
Definition timestamptz := Z.

(** The sentinel the loaders send when a scope is empty. *)
Definition nil_uuid : uuid := "00000000-0000-0000-0000-000000000000".

(** [profiles_role_check]: CHECK (role IN ('admin','team_leader','operator')). *)
Inductive Role := admin | team_leader | operator.

Definition Role_eqb (a b : Role) : bool :=
  match a, b with
  | admin, admin | team_leader, team_leader | operator, operator => true
  | _, _ => false
  end.

Definition option_eqb (a : option uuid) (b : uuid) : bool :=
  match a with
  | Some x => String.eqb x b
  | None => false (* NULL = b is not true *)
  end.

(** ** Tables (Database['public']['Tables'][...]['Row']) *)

Module profiles.
Record Row := {
  id : uuid;
  email : string;
  full_name : string;
  role : Role;
}.
End profiles.

Module departments.
Record Row := {
  id : uuid;
  name : string;
  description : string;
  created_by : option uuid;
}.
End departments.

Module department_leaders.
Record Row := {
  id : uuid;
  department_id : uuid;
  user_id : uuid;
  assigned_by : option uuid;
}.
End department_leaders.

Module machine_operators.
Record Row := {
  id : uuid;
  machine_id : uuid;
  user_id : uuid;
  assigned_by : option uuid;
}.
End machine_operators.

Module machines.
Record Row := {
  id : uuid;
  machine_code : string;
  machine_name : string;
  description : string;
  current_status : string;
  last_updated_at : timestamptz;
  last_updated_by : option uuid;
  department_id : option uuid;
}.
End machines.

Module status_types.
Record Row := {
  id : uuid;
  name : string;
  color : string;
  is_default : bool;
  is_active : bool;
  display_order : Z;
  created_by : option uuid;
}.
End status_types.

Module status_history.
Record Row := {
  id : uuid;
  machine_id : uuid;
  status : string;
  previous_status : string;
  comment : string;
  changed_by : uuid;
  changed_at : timestamptz;
}.
End status_history.

Record Database := {
  profiles : list profiles.Row;
  departments : list departments.Row;
  department_leaders : list department_leaders.Row;
  machine_operators : list machine_operators.Row;
  machines : list machines.Row;
  status_types : list status_types.Row;
  status_history : list status_history.Row;
}.

(** ** Errors a statement can raise *)

Inductive Error :=
| AuthorizationDenied   (* SQLSTATE 42501: new row violates row-level security *)
| ConstraintViolation.  (* SQLSTATE 23505 / 23503: unique or foreign key *)

Definition Result := (Error + Database)%type.

(** The database a caller observes after a statement: unchanged on error. *)
Definition state_after (db : Database) (r : Result) : Database :=
  match r with
  | inl _ => db
  | inr db' => db'
  end.

(** ** The query builder (select / eq / in / order / limit) *)

Module Q.
Section Query.
Context {R : Type}.

Record Query := {
  q_where : R -> bool;
  q_order : option (R -> R -> bool);
  q_limit : option nat;
}.

Definition select_all : Query :=
  {| q_where := fun _ => true; q_order := None; q_limit := None |}.

Definition and_where (q : Query) (p : R -> bool) : Query :=
  {| q_where := fun r => q_where q r && p r;
     q_order := q_order q;
     q_limit := q_limit q |}.

Definition eq (q : Query) (col : R -> uuid) (v : uuid) : Query :=
  and_where q (fun r => String.eqb (col r) v).

Definition in_ (q : Query) (col : R -> uuid) (vs : list uuid) : Query :=
  and_where q (fun r => existsb (String.eqb (col r)) vs).

(** [in] on a nullable column: NULL is in no list. *)
Definition in_nullable (q : Query) (col : R -> option uuid) (vs : list uuid) : Query :=
  and_where q (fun r => existsb (option_eqb (col r)) vs).

Definition order (q : Query) (leb : R -> R -> bool) : Query :=
  {| q_where := q_where q; q_order := Some leb; q_limit := q_limit q |}.

Definition limit (q : Query) (n : nat) : Query :=
  {| q_where := q_where q; q_order := q_order q; q_limit := Some n |}.

Fixpoint insert_sorted (leb : R -> R -> bool) (x : R) (l : list R) : list R :=
  match l with
  | [] => [x]
  | y :: t => if leb x y then x :: y :: t else y :: insert_sorted leb x t
  end.

Fixpoint sort_rows (leb : R -> R -> bool) (l : list R) : list R :=
  match l with
  | [] => []
  | x :: t => insert_sorted leb x (sort_rows leb t)
  end.

Definition apply_order (o : option (R -> R -> bool)) (l : list R) : list R :=
  match o with
  | Some leb => sort_rows leb l
  | None => l
  end.

Definition apply_limit (n : option nat) (l : list R) : list R :=
  match n with
  | Some k => firstn k l
  | None => l
  end.

(** Running a SELECT: the policy decides which rows exist for the caller,
    then WHERE, ORDER BY and LIMIT apply in that order. *)
Definition run (visible : R -> bool) (table : list R) (q : Query) : list R :=
  apply_limit (q_limit q)
    (apply_order (q_order q)
       (filter (q_where q) (filter visible table))).

End Query.

Arguments Query R : clear implicits.
End Q.

(** ** Row-level security

    Every table has RLS enabled, so a command with no applicable policy
    sees no row.  Policies of one command are OR-ed.  A policy declared
    [TO authenticated] applies when [auth.uid()] is [Some _], one declared
    [TO anon] when it is [None]. *)

Definition authenticated (uid : option uuid) : bool :=
  match uid with Some _ => true | None => false end.

Definition anon (uid : option uuid) : bool :=
  match uid with Some _ => false | None => true end.

(** (SELECT role FROM profiles WHERE id = auth.uid()); [profiles.id] is
    the primary key, so at most one row answers. *)
Definition role_of (db : Database) (uid : option uuid) : option Role :=
  option_map profiles.role
    (find (fun p => option_eqb uid (profiles.id p)) (profiles db)).

(** EXISTS (SELECT 1 FROM profiles
            WHERE profiles.id = auth.uid() AND profiles.role IN (roles)) *)
Definition has_role (db : Database) (uid : option uuid) (roles : list Role) : bool :=
  match role_of db uid with
  | Some r => existsb (Role_eqb r) roles
  | None => false
  end.

(** EXISTS (SELECT 1 FROM department_leaders
            WHERE user_id = auth.uid() AND department_id = machines.department_id) *)
Definition leads_department_of (db : Database) (uid : option uuid)
    (dept : option uuid) : bool :=
  existsb (fun l => option_eqb uid (department_leaders.user_id l)
                    && option_eqb dept (department_leaders.department_id l))
          (department_leaders db).

(** EXISTS (SELECT 1 FROM machine_operators
            WHERE user_id = auth.uid() AND machine_id = machines.id) *)
Definition operates_machine (db : Database) (uid : option uuid) (m : uuid) : bool :=
  existsb (fun a => option_eqb uid (machine_operators.user_id a)
                    && String.eqb (machine_operators.machine_id a) m)
          (machine_operators db).

Module policy.

(** *** profiles *)

(* "Users can view all profiles" *)
Definition profiles_select (uid : option uuid) (_ : profiles.Row) : bool :=
  authenticated uid.

(* "Users can update own profile", USING *)
Definition profiles_update_using (uid : option uuid) (p : profiles.Row) : bool :=
  option_eqb uid (profiles.id p).

(* "Users can update own profile", WITH CHECK; the sub-select reads the
   table as it was before the statement. *)
Definition profiles_update_check (db : Database) (uid : option uuid)
    (p : profiles.Row) : bool :=
  option_eqb uid (profiles.id p)
  && match role_of db uid with
     | Some r => Role_eqb (profiles.role p) r
     | None => false
     end.

(* "Users can insert own profile" *)
Definition profiles_insert_check (uid : option uuid) (p : profiles.Row) : bool :=
  option_eqb uid (profiles.id p).

(** *** departments *)

(* "All users can view departments" / "Anyone can view departments" *)
Definition departments_select (uid : option uuid) (_ : departments.Row) : bool :=
  authenticated uid || anon uid.

(* "Admins can insert / update / delete departments" *)
Definition departments_write (db : Database) (uid : option uuid)
    (_ : departments.Row) : bool :=
  has_role db uid [admin].

(** *** department_leaders *)

(* "All users can view department leaders" / "Admins can manage department leaders" *)
Definition department_leaders_select (db : Database) (uid : option uuid)
    (_ : department_leaders.Row) : bool :=
  authenticated uid || has_role db uid [admin].

(* "Admins can manage department leaders" (FOR ALL) *)
Definition department_leaders_write (db : Database) (uid : option uuid)
    (_ : department_leaders.Row) : bool :=
  has_role db uid [admin].

(** *** machine_operators *)

(* "All users can view machine operators" / "Admins and team leaders can manage ..." *)
Definition machine_operators_select (db : Database) (uid : option uuid)
    (_ : machine_operators.Row) : bool :=
  authenticated uid || has_role db uid [admin; team_leader].

(* "Admins and team leaders can manage machine operators" (FOR ALL) *)
Definition machine_operators_write (db : Database) (uid : option uuid)
    (_ : machine_operators.Row) : bool :=
  has_role db uid [admin; team_leader].

(** *** machines *)

(* "Operators can view assigned machines" (authenticated),
   "Anyone can view machines" (anon) *)
Definition machines_select (db : Database) (uid : option uuid)
    (m : machines.Row) : bool :=
  (authenticated uid
   && (has_role db uid [admin]
       || leads_department_of db uid (machines.department_id m)
       || operates_machine db uid (machines.id m)))
  || anon uid.

(* "Admins and team leaders can insert machines" *)
Definition machines_insert_check (db : Database) (uid : option uuid)
    (m : machines.Row) : bool :=
  has_role db uid [admin]
  || (has_role db uid [team_leader]
      && leads_department_of db uid (machines.department_id m)).

(* "Users can update machines based on role", USING and WITH CHECK alike *)
Definition machines_update (db : Database) (uid : option uuid)
    (m : machines.Row) : bool :=
  has_role db uid [admin]
  || leads_department_of db uid (machines.department_id m)
  || operates_machine db uid (machines.id m).

(* "Admins can delete machines" *)
Definition machines_delete_using (db : Database) (uid : option uuid)
    (_ : machines.Row) : bool :=
  has_role db uid [admin].

(** *** status_types *)

(* "All users can view active status types", "Admins can view all status
   types" (authenticated); "Anyone can view status types" (anon) *)
Definition status_types_select (db : Database) (uid : option uuid)
    (s : status_types.Row) : bool :=
  (authenticated uid
   && (Bool.eqb (status_types.is_active s) true || has_role db uid [admin]))
  || anon uid.

(* "Admins can insert status types", "Admins can update status types" *)
Definition status_types_write (db : Database) (uid : option uuid)
    (_ : status_types.Row) : bool :=
  has_role db uid [admin].

(* "Admins can delete status types" *)
Definition status_types_delete_using (db : Database) (uid : option uuid)
    (s : status_types.Row) : bool :=
  has_role db uid [admin] && Bool.eqb (status_types.is_default s) false.

(** *** status_history *)

(* "All users can view status history" / "Anyone can view status history" *)
Definition status_history_select (uid : option uuid)
    (_ : status_history.Row) : bool :=
  authenticated uid || anon uid.

(* "Admins and operators can insert status history" *)
Definition status_history_insert_check (db : Database) (uid : option uuid)
    (h : status_history.Row) : bool :=
  option_eqb uid (status_history.changed_by h)
  && has_role db uid [admin; operator].

(* No UPDATE and no DELETE policy was ever created on status_history. *)
Definition status_history_update_using (uid : option uuid)
    (_ : status_history.Row) : bool := false.

Definition status_history_delete_using (uid : option uuid)
    (_ : status_history.Row) : bool := false.

End policy.

(** ** Statements

    An INSERT evaluates the WITH CHECK policy on the new row first and
    raises [AuthorizationDenied] when it fails; keys and foreign keys are
    checked afterwards.  An UPDATE or DELETE only sees the rows its USING
    policy admits: a row it does not admit is silently left alone. *)

Definition mem (x : uuid) (l : list uuid) : bool := existsb (String.eqb x) l.

Definition mem_opt (x : option uuid) (l : list uuid) : bool :=
  match x with
  | Some v => mem v l
  | None => true (* a NULL reference satisfies the foreign key *)
  end.

Definition with_profiles (db : Database) (v : list profiles.Row) : Database :=
  {| profiles := v; departments := departments db;
     department_leaders := department_leaders db;
     machine_operators := machine_operators db; machines := machines db;
     status_types := status_types db; status_history := status_history db |}.

Definition with_departments (db : Database) (v : list departments.Row) : Database :=
  {| profiles := profiles db; departments := v;
     department_leaders := department_leaders db;
     machine_operators := machine_operators db; machines := machines db;
     status_types := status_types db; status_history := status_history db |}.

Definition with_department_leaders (db : Database)
    (v : list department_leaders.Row) : Database :=
  {| profiles := profiles db; departments := departments db;
     department_leaders := v;
     machine_operators := machine_operators db; machines := machines db;
     status_types := status_types db; status_history := status_history db |}.

Definition with_machine_operators (db : Database)
    (v : list machine_operators.Row) : Database :=
  {| profiles := profiles db; departments := departments db;
     department_leaders := department_leaders db;
     machine_operators := v; machines := machines db;
     status_types := status_types db; status_history := status_history db |}.

Definition with_machines (db : Database) (v : list machines.Row) : Database :=
  {| profiles := profiles db; departments := departments db;
     department_leaders := department_leaders db;
     machine_operators := machine_operators db; machines := v;
     status_types := status_types db; status_history := status_history db |}.

Definition with_status_types (db : Database) (v : list status_types.Row) : Database :=
  {| profiles := profiles db; departments := departments db;
     department_leaders := department_leaders db;
     machine_operators := machine_operators db; machines := machines db;
     status_types := v; status_history := status_history db |}.

Definition with_status_history (db : Database)
    (v : list status_history.Row) : Database :=
  {| profiles := profiles db; departments := departments db;
     department_leaders := department_leaders db;
     machine_operators := machine_operators db; machines := machines db;
     status_types := status_types db; status_history := v |}.

(** *** departments *)

(* supabase.from('departments').insert({...}) *)
Definition insert_department (db : Database) (uid : option uuid)
    (d : departments.Row) : Result :=
  if negb (policy.departments_write db uid d) then inl AuthorizationDenied
  else if mem (departments.id d) (map departments.id (departments db))
          || existsb (String.eqb (departments.name d))
                     (map departments.name (departments db))
          || negb (mem_opt (departments.created_by d) (map profiles.id (profiles db)))
  then inl ConstraintViolation
  else inr (with_departments db (departments db ++ [d])).

(* supabase.from('departments').delete().eq('id', id)

   department_leaders.department_id ... ON DELETE CASCADE
   machines.department_id uuid REFERENCES departments(id)   -- no action *)
Definition delete_department (db : Database) (uid : option uuid) (id : uuid) : Result :=
  let doomed (d : departments.Row) :=
    policy.departments_write db uid d && String.eqb (departments.id d) id in
  if existsb doomed (departments db) then
    if existsb (fun m => option_eqb (machines.department_id m) id) (machines db)
    then inl ConstraintViolation
    else inr (with_department_leaders
                (with_departments db
                   (filter (fun d => negb (doomed d)) (departments db)))
                (filter (fun l => negb (String.eqb (department_leaders.department_id l) id))
                        (department_leaders db)))
  else inr db.

(** *** department_leaders *)

Definition insert_department_leader (db : Database) (uid : option uuid)
    (l : department_leaders.Row) : Result :=
  if negb (policy.department_leaders_write db uid l) then inl AuthorizationDenied
  else if mem (department_leaders.id l) (map department_leaders.id (department_leaders db))
          || existsb (fun x => String.eqb (department_leaders.department_id x)
                                          (department_leaders.department_id l)
                               && String.eqb (department_leaders.user_id x)
                                             (department_leaders.user_id l))
                     (department_leaders db)
          || negb (mem (department_leaders.department_id l)
                       (map departments.id (departments db)))
          || negb (mem (department_leaders.user_id l) (map profiles.id (profiles db)))
          || negb (mem_opt (department_leaders.assigned_by l)
                           (map profiles.id (profiles db)))
  then inl ConstraintViolation
  else inr (with_department_leaders db (department_leaders db ++ [l])).

Definition delete_department_leader (db : Database) (uid : option uuid)
    (id : uuid) : Result :=
  inr (with_department_leaders db
         (filter (fun l => negb (policy.department_leaders_write db uid l
                                 && String.eqb (department_leaders.id l) id))
                 (department_leaders db))).

(** *** machine_operators *)

Definition insert_machine_operator (db : Database) (uid : option uuid)
    (a : machine_operators.Row) : Result :=
  if negb (policy.machine_operators_write db uid a) then inl AuthorizationDenied
  else if mem (machine_operators.id a) (map machine_operators.id (machine_operators db))
          || existsb (fun x => String.eqb (machine_operators.machine_id x)
                                          (machine_operators.machine_id a)
                               && String.eqb (machine_operators.user_id x)
                                             (machine_operators.user_id a))
                     (machine_operators db)
          || negb (mem (machine_operators.machine_id a) (map machines.id (machines db)))
          || negb (mem (machine_operators.user_id a) (map profiles.id (profiles db)))
          || negb (mem_opt (machine_operators.assigned_by a)
                           (map profiles.id (profiles db)))
  then inl ConstraintViolation
  else inr (with_machine_operators db (machine_operators db ++ [a])).

Definition delete_machine_operator (db : Database) (uid : option uuid)
    (id : uuid) : Result :=
  inr (with_machine_operators db
         (filter (fun a => negb (policy.machine_operators_write db uid a
                                 && String.eqb (machine_operators.id a) id))
                 (machine_operators db))).

(** *** machines *)

(* id PRIMARY KEY, machine_code UNIQUE,
   department_id REFERENCES departments(id), last_updated_by REFERENCES profiles(id) *)
Definition machines_constraints_violated (db : Database) (m : machines.Row) : bool :=
  mem (machines.id m) (map machines.id (machines db))
  || existsb (String.eqb (machines.machine_code m))
             (map machines.machine_code (machines db))
  || negb (mem_opt (machines.department_id m) (map departments.id (departments db)))
  || negb (mem_opt (machines.last_updated_by m) (map profiles.id (profiles db))).

(* supabase.from('machines').insert({...}) *)
Definition insert_machine (db : Database) (uid : option uuid)
    (m : machines.Row) : Result :=
  if negb (policy.machines_insert_check db uid m) then inl AuthorizationDenied
  else if machines_constraints_violated db m then inl ConstraintViolation
  else inr (with_machines db (machines db ++ [m])).

Definition set_status (m : machines.Row) (new_status : string)
    (by_ : option uuid) (at_ : timestamptz) : machines.Row :=
  {| machines.id := machines.id m;
     machines.machine_code := machines.machine_code m;
     machines.machine_name := machines.machine_name m;
     machines.description := machines.description m;
     machines.current_status := new_status;
     machines.last_updated_at := at_;
     machines.last_updated_by := by_;
     machines.department_id := machines.department_id m |}.

(* .update({ current_status, last_updated_by, last_updated_at }).eq('id', id) *)
Definition update_machine_status (db : Database) (uid : option uuid) (id : uuid)
    (new_status : string) (at_ : timestamptz) : Result :=
  let hit (m : machines.Row) :=
    policy.machines_update db uid m && String.eqb (machines.id m) id in
  let new_rows := map (fun m => set_status m new_status uid at_)
                      (filter hit (machines db)) in
  if negb (forallb (policy.machines_update db uid) new_rows)
  then inl AuthorizationDenied
  else if existsb hit (machines db)
          && negb (mem_opt uid (map profiles.id (profiles db)))
  then inl ConstraintViolation
  else inr (with_machines db
              (map (fun m => if hit m then set_status m new_status uid at_ else m)
                   (machines db))).

(* supabase.from('machines').delete().eq('id', id)

   machine_operators.machine_id ... ON DELETE CASCADE
   status_history.machine_id   ... ON DELETE CASCADE *)
Definition delete_machine (db : Database) (uid : option uuid) (id : uuid) : Result :=
  let doomed (m : machines.Row) :=
    policy.machines_delete_using db uid m && String.eqb (machines.id m) id in
  if existsb doomed (machines db) then
    inr (with_status_history
           (with_machine_operators
              (with_machines db (filter (fun m => negb (doomed m)) (machines db)))
              (filter (fun a => negb (String.eqb (machine_operators.machine_id a) id))
                      (machine_operators db)))
           (filter (fun h => negb (String.eqb (status_history.machine_id h) id))
                   (status_history db)))
  else inr db.

(** *** status_history *)

(* id PRIMARY KEY, machine_id REFERENCES machines(id),
   changed_by REFERENCES profiles(id) *)
Definition status_history_constraints_violated (db : Database)
    (h : status_history.Row) : bool :=
  mem (status_history.id h) (map status_history.id (status_history db))
  || negb (mem (status_history.machine_id h) (map machines.id (machines db)))
  || negb (mem (status_history.changed_by h) (map profiles.id (profiles db))).

Definition insert_status_history (db : Database) (uid : option uuid)
    (h : status_history.Row) : Result :=
  if negb (policy.status_history_insert_check db uid h) then inl AuthorizationDenied
  else if status_history_constraints_violated db h then inl ConstraintViolation
  else inr (with_status_history db (status_history db ++ [h])).

(* .update(patch).eq('id', id): the patch is an arbitrary function of the row *)
Definition update_status_history (db : Database) (uid : option uuid) (id : uuid)
    (patch : status_history.Row -> status_history.Row) : Result :=
  inr (with_status_history db
         (map (fun h => if policy.status_history_update_using uid h
                           && String.eqb (status_history.id h) id
                        then patch h else h)
              (status_history db))).

Definition delete_status_history (db : Database) (uid : option uuid) (id : uuid) : Result :=
  inr (with_status_history db
         (filter (fun h => negb (policy.status_history_delete_using uid h
                                 && String.eqb (status_history.id h) id))
                 (status_history db))).

(** *** status_types *)

Definition insert_status_type (db : Database) (uid : option uuid)
    (s : status_types.Row) : Result :=
  if negb (policy.status_types_write db uid s) then inl AuthorizationDenied
  else if mem (status_types.id s) (map status_types.id (status_types db))
          || existsb (String.eqb (status_types.name s))
                     (map status_types.name (status_types db))
          || negb (mem_opt (status_types.created_by s) (map profiles.id (profiles db)))
  then inl ConstraintViolation
  else inr (with_status_types db (status_types db ++ [s])).

Definition set_is_active (s : status_types.Row) (v : bool) : status_types.Row :=
  {| status_types.id := status_types.id s;
     status_types.name := status_types.name s;
     status_types.color := status_types.color s;
     status_types.is_default := status_types.is_default s;
     status_types.is_active := v;
     status_types.display_order := status_types.display_order s;
     status_types.created_by := status_types.created_by s |}.

Definition set_name_color (s : status_types.Row) (n c : string) : status_types.Row :=
  {| status_types.id := status_types.id s;
     status_types.name := n;
     status_types.color := c;
     status_types.is_default := status_types.is_default s;
     status_types.is_active := status_types.is_active s;
     status_types.display_order := status_types.display_order s;
     status_types.created_by := status_types.created_by s |}.

(* .update({ is_active: v }).eq('id', id) *)
Definition update_status_type_active (db : Database) (uid : option uuid)
    (id : uuid) (v : bool) : Result :=
  let hit (s : status_types.Row) :=
    policy.status_types_write db uid s && String.eqb (status_types.id s) id in
  inr (with_status_types db
         (map (fun s => if hit s then set_is_active s v else s) (status_types db))).

(* .update({ name, color }).eq('id', id) *)
Definition update_status_type_name (db : Database) (uid : option uuid)
    (id : uuid) (n c : string) : Result :=
  let hit (s : status_types.Row) :=
    policy.status_types_write db uid s && String.eqb (status_types.id s) id in
  if existsb (fun s => hit s) (status_types db)
     && existsb (fun s => negb (String.eqb (status_types.id s) id)
                          && String.eqb (status_types.name s) n)
                (status_types db)
  then inl ConstraintViolation
  else inr (with_status_types db
              (map (fun s => if hit s then set_name_color s n c else s)
                   (status_types db))).

(* supabase.from('status_types').delete().eq('id', id) *)
Definition delete_status_type (db : Database) (uid : option uuid) (id : uuid) : Result :=
  inr (with_status_types db
         (filter (fun s => negb (policy.status_types_delete_using db uid s
                                 && String.eqb (status_types.id s) id))
                 (status_types db))).

(** *** profiles *)

Definition set_role (p : profiles.Row) (r : Role) : profiles.Row :=
  {| profiles.id := profiles.id p;
     profiles.email := profiles.email p;
     profiles.full_name := profiles.full_name p;
     profiles.role := r |}.

Definition set_full_name (p : profiles.Row) (n : string) : profiles.Row :=
  {| profiles.id := profiles.id p;
     profiles.email := profiles.email p;
     profiles.full_name := n;
     profiles.role := profiles.role p |}.

(* .update(patch).eq('id', id), for a patch that leaves the key alone *)
Definition update_profile (db : Database) (uid : option uuid) (id : uuid)
    (patch : profiles.Row -> profiles.Row) : Result :=
  let hit (p : profiles.Row) :=
    policy.profiles_update_using uid p && String.eqb (profiles.id p) id in
  if negb (forallb (policy.profiles_update_check db uid)
                   (map patch (filter hit (profiles db))))
  then inl AuthorizationDenied
  else inr (with_profiles db
              (map (fun p => if hit p then patch p else p) (profiles db))).

Definition insert_profile (db : Database) (uid : option uuid)
    (p : profiles.Row) : Result :=
  if negb (policy.profiles_insert_check uid p) then inl AuthorizationDenied
  else if mem (profiles.id p) (map profiles.id (profiles db))
  then inl ConstraintViolation
  else inr (with_profiles db (profiles db ++ [p])).

(** ** The signed-in caller

    [useAuth()] hands every component the session's [user] and the
    [profiles] row of that user; [profile?.role] is therefore [role_of]. *)

Definition by_changed_at_desc (a b : status_history.Row) : bool :=
  (status_history.changed_at b <=? status_history.changed_at a)%Z.

Definition by_machine_code (a b : machines.Row) : bool :=
  String.leb (machines.machine_code a) (machines.machine_code b).

Definition by_name (a b : departments.Row) : bool :=
  String.leb (departments.name a) (departments.name b).

(** [new Map(rows.map(r => [key r, r])).get(k)]: the last row wins. *)
Definition map_get {R : Type} (key : R -> uuid) (rows : list R) (k : uuid) : option R :=
  find (fun r => String.eqb (key r) k) (rev rows).

(** [x || fallback] on a possibly missing string: the empty string is falsy. *)
Definition or_else (x : option string) (fallback : string) : string :=
  match x with
  | Some EmptyString | None => fallback
  | Some s => s
  end.

(** ** HistoryPage: the history of every machine in the caller's scope *)

Module HistoryPage.

Record HistoryEntry := {
  entry : status_history.Row;
  machine : option machines.Row;
  user_name : string;
}.

(** The scope filter [loadHistory] adds to its query. *)
Definition scoped (db : Database) (user : option uuid)
    (query : Q.Query status_history.Row) : Q.Query status_history.Row :=
  match user, role_of db user with
  | Some u, Some operator =>
      let assignments :=
        Q.run (policy.machine_operators_select db user) (machine_operators db)
              (Q.eq Q.select_all machine_operators.user_id u) in
      let machineIds := map machine_operators.machine_id assignments in
      if (0 <? length machineIds)%nat
      then Q.in_ query status_history.machine_id machineIds
      else Q.eq query status_history.machine_id nil_uuid
  | Some u, Some team_leader =>
      let myDepts :=
        Q.run (policy.department_leaders_select db user) (department_leaders db)
              (Q.eq Q.select_all department_leaders.user_id u) in
      let deptIds := map department_leaders.department_id myDepts in
      if (0 <? length deptIds)%nat
      then
        let deptMachines :=
          Q.run (policy.machines_select db user) (machines db)
                (Q.in_nullable Q.select_all machines.department_id deptIds) in
        let machineIds := map machines.id deptMachines in
        if (0 <? length machineIds)%nat
        then Q.in_ query status_history.machine_id machineIds
        else Q.eq query status_history.machine_id nil_uuid
      else Q.eq query status_history.machine_id nil_uuid
  | _, _ => query
  end.

Definition loadHistory (db : Database) (user : option uuid) : list HistoryEntry :=
  let query := Q.order Q.select_all by_changed_at_desc in
  let query := scoped db user query in
  let historyData := Q.run (policy.status_history_select user) (status_history db) query in
  let machineIds := nodup string_dec (map status_history.machine_id historyData) in
  let userIds := nodup string_dec (map status_history.changed_by historyData) in
  let machinesData :=
    Q.run (policy.machines_select db user) (machines db)
          (Q.in_ Q.select_all machines.id machineIds) in
  let profiles_ :=
    Q.run (policy.profiles_select user) (profiles db)
          (Q.in_ Q.select_all profiles.id userIds) in
  map (fun h =>
         {| entry := h;
            machine := map_get machines.id machinesData (status_history.machine_id h);
            user_name :=
              or_else (option_map profiles.full_name
                         (map_get profiles.id profiles_ (status_history.changed_by h)))
                      "Bilinmeyen Kullanıcı" |})
      historyData.

End HistoryPage.

(** ** MachineManagement: the machine list of the management screen *)

Module MachineManagement.

Record State := {
  departments_ : list departments.Row;
  teamLeaderDepartments : list uuid;
  machines_ : list machines.Row;
}.

Definition loadData (db : Database) (user : option uuid) : State :=
  let depts :=
    Q.run (policy.departments_select user) (departments db)
          (Q.order Q.select_all by_name) in
  match role_of db user with
  | Some team_leader =>
      let myDepts :=
        Q.run (policy.department_leaders_select db user) (department_leaders db)
              (Q.and_where Q.select_all
                 (fun l => option_eqb user (department_leaders.user_id l))) in
      let deptIds := map department_leaders.department_id myDepts in
      let machineQuery := Q.order Q.select_all by_machine_code in
      let machineQuery :=
        if (0 <? length deptIds)%nat
        then Q.in_nullable machineQuery machines.department_id deptIds
        else Q.eq machineQuery machines.id nil_uuid in
      {| departments_ := depts;
         teamLeaderDepartments := deptIds;
         machines_ := Q.run (policy.machines_select db user) (machines db) machineQuery |}
  | _ =>
      {| departments_ := depts;
         teamLeaderDepartments := [];
         machines_ :=
           Q.run (policy.machines_select db user) (machines db)
                 (Q.order Q.select_all by_machine_code) |}
  end.

Record FormData := {
  machine_code : string;
  machine_name : string;
  description : string;
  department_id : string;
}.

(* [id] and [last_updated_at] are the column defaults gen_random_uuid() and
   now(), drawn by the server. *)
Definition handleSubmit (db : Database) (user : option uuid) (formData : FormData)
    (gen_random_uuid : uuid) (now : timestamptz) : Result :=
  insert_machine db user
    {| machines.id := gen_random_uuid;
       machines.machine_code := machine_code formData;
       machines.machine_name := machine_name formData;
       machines.description := description formData;
       machines.current_status := "Beklemede";
       machines.last_updated_at := now;
       machines.last_updated_by := None;
       machines.department_id :=
         match department_id formData with
         | EmptyString => None     (* formData.department_id || null *)
         | d => Some d
         end |}.

Definition handleDelete (db : Database) (user : option uuid) (id : uuid) : Result :=
  delete_machine db user id.


End MachineManagement.

(** ** StatusHistory: the history panel of one machine *)

Module StatusHistory.

Record HistoryEntry := {
  entry : status_history.Row;
  user_name : string;
}.

Definition historyData (db : Database) (user : option uuid) (machineId : uuid)
    : list status_history.Row :=
  Q.run (policy.status_history_select user) (status_history db)
        (Q.limit
           (Q.order (Q.eq Q.select_all status_history.machine_id machineId)
                    by_changed_at_desc)
           20).

Definition loadHistory (db : Database) (user : option uuid) (machineId : uuid)
    : list HistoryEntry :=
  let historyData := historyData db user machineId in
  let userIds := nodup string_dec (map status_history.changed_by historyData) in
  let profiles_ :=
    Q.run (policy.profiles_select user) (profiles db)
          (Q.in_ Q.select_all profiles.id userIds) in
  map (fun h =>
         {| entry := h;
            user_name :=
              or_else (option_map profiles.full_name
                         (map_get profiles.id profiles_ (status_history.changed_by h)))
                      "Unknown User" |})
      historyData.

End StatusHistory.

(** ** Event handlers of the management screens

    A handler either returns early (the database is not contacted) or
    issues one statement; it logs an error and changes nothing else. *)

Module DepartmentManagement.

(* handleDeleteDepartment, once the user has confirmed *)
Definition handleDeleteDepartment (db : Database) (user : option uuid) (id : uuid)
    : Result :=
  delete_department db user id.

End DepartmentManagement.

Module StatusTypeManagement.

Definition handleToggleActive (db : Database) (user : option uuid)
    (status : status_types.Row) : Result :=
  update_status_type_active db user (status_types.id status)
                            (negb (status_types.is_active status)).

(* [status] is the row as the screen last loaded it *)
Definition handleDelete (db : Database) (user : option uuid)
    (status : status_types.Row) : Result :=
  if status_types.is_default status
  then inr db (* alert('Cannot delete default status types'); return *)
  else delete_status_type db user (status_types.id status).

End StatusTypeManagement.

Module UserManagement.

Definition loadUsers (db : Database) (user : option uuid) : list profiles.Row :=
  let query :=
    Q.order Q.select_all
      (fun a b => String.leb (profiles.full_name a) (profiles.full_name b)) in
  let query :=
    match role_of db user with
    | Some team_leader =>
        Q.and_where query (fun p => Role_eqb (profiles.role p) operator)
    | _ => query
    end in
  Q.run (policy.profiles_select user) (profiles db) query.

Definition handleRoleChange (db : Database) (user : option uuid)
    (userId : uuid) (newRole : Role) : Result :=
  match role_of db user with
  | Some team_leader => inr db (* return *)
  | _ => update_profile db user userId (fun p => set_role p newRole)
  end.

End UserManagement.

(** ** Every statement a caller can issue *)

Inductive Statement :=
| InsertProfile (p : profiles.Row)
| UpdateProfile (id : uuid) (patch : profiles.Row -> profiles.Row)
| InsertDepartment (d : departments.Row)
| DeleteDepartment (id : uuid)
| InsertDepartmentLeader (l : department_leaders.Row)
| DeleteDepartmentLeader (id : uuid)
| InsertMachineOperator (a : machine_operators.Row)
| DeleteMachineOperator (id : uuid)
| InsertMachine (m : machines.Row)
| UpdateMachineStatus (id : uuid) (new_status : string) (at_ : timestamptz)
| DeleteMachine (id : uuid)
| InsertStatusType (s : status_types.Row)
| UpdateStatusTypeActive (id : uuid) (v : bool)
| UpdateStatusTypeName (id : uuid) (n c : string)
| DeleteStatusType (id : uuid)
| InsertStatusHistory (h : status_history.Row)
| UpdateStatusHistory (id : uuid) (patch : status_history.Row -> status_history.Row)
| DeleteStatusHistory (id : uuid).

Definition exec (db : Database) (uid : option uuid) (s : Statement) : Result :=
  match s with
  | InsertProfile p => insert_profile db uid p
  | UpdateProfile id patch => update_profile db uid id patch
  | InsertDepartment d => insert_department db uid d
  | DeleteDepartment id => delete_department db uid id
  | InsertDepartmentLeader l => insert_department_leader db uid l
  | DeleteDepartmentLeader id => delete_department_leader db uid id
  | InsertMachineOperator a => insert_machine_operator db uid a
  | DeleteMachineOperator id => delete_machine_operator db uid id
  | InsertMachine m => insert_machine db uid m
  | UpdateMachineStatus id st at_ => update_machine_status db uid id st at_
  | DeleteMachine id => delete_machine db uid id
  | InsertStatusType s => insert_status_type db uid s
  | UpdateStatusTypeActive id v => update_status_type_active db uid id v
  | UpdateStatusTypeName id n c => update_status_type_name db uid id n c
  | DeleteStatusType id => delete_status_type db uid id
  | InsertStatusHistory h => insert_status_history db uid h
  | UpdateStatusHistory id patch => update_status_history db uid id patch
  | DeleteStatusHistory id => delete_status_history db uid id
  end.

(** ** The previous_status backfill of the status-types migration

    Run once by the migration, outside row-level security.  For each record
    whose previous_status is still empty, the status of the latest earlier
    record of the same machine is copied in, when there is one. *)

Definition set_previous_status (h : status_history.Row) (s : string)
    : status_history.Row :=
  {| status_history.id := status_history.id h;
     status_history.machine_id := status_history.machine_id h;
     status_history.status := status_history.status h;
     status_history.previous_status := s;
     status_history.comment := status_history.comment h;
     status_history.changed_by := status_history.changed_by h;
     status_history.changed_at := status_history.changed_at h |}.

Definition prev_status (table : list status_history.Row) (h : status_history.Row)
    : option string :=
  option_map status_history.status
    (hd_error
       (Q.sort_rows by_changed_at_desc
          (filter (fun x => String.eqb (status_history.machine_id x)
                                       (status_history.machine_id h)
                            && (status_history.changed_at x
                                <? status_history.changed_at h)%Z)
                  table))).

Definition backfill_previous_status (db : Database) : Database :=
  with_status_history db
    (map (fun h =>
            if String.eqb (status_history.previous_status h) ""
            then match prev_status (status_history db) h with
                 | Some s => set_previous_status h s
                 | None => h
                 end
            else h)
         (status_history db)).

(** ** A sample database

    Departments QC, Prod and Lab; machine M100 in QC and M200 in Prod, none
    in Lab.  Tarik leads QC and Lab, Oya operates M100, Lale is a team
    leader without a department, Onur is an operator without a machine
    who holds a leader row for QC, and Orhan is an operator without any
    assignment. *)

Module demo.

Definition u_admin : uuid := "0a000000-0000-4000-8000-000000000001".
Definition u_lead : uuid := "0a000000-0000-4000-8000-000000000002".
Definition u_op : uuid := "0a000000-0000-4000-8000-000000000003".
Definition u_lead2 : uuid := "0a000000-0000-4000-8000-000000000004".
Definition u_op2 : uuid := "0a000000-0000-4000-8000-000000000005".
Definition u_op3 : uuid := "0a000000-0000-4000-8000-000000000006".
Definition d_qc : uuid := "0d000000-0000-4000-8000-000000000001".
Definition d_prod : uuid := "0d000000-0000-4000-8000-000000000002".
Definition d_lab : uuid := "0d000000-0000-4000-8000-000000000003".
Definition m_100 : uuid := "0e000000-0000-4000-8000-000000000100".
Definition m_200 : uuid := "0e000000-0000-4000-8000-000000000200".

Definition profile (i : uuid) (n : string) (r : Role) : profiles.Row :=
  {| profiles.id := i; profiles.email := (n ++ "@example.com")%string;
     profiles.full_name := n; profiles.role := r |}.

Definition M100 : machines.Row :=
  {| machines.id := m_100; machines.machine_code := "M100";
     machines.machine_name := "Gauge"; machines.description := "";
     machines.current_status := "Idle"; machines.last_updated_at := 10%Z;
     machines.last_updated_by := Some u_op; machines.department_id := Some d_qc |}.

Definition M200 : machines.Row :=
  {| machines.id := m_200; machines.machine_code := "M200";
     machines.machine_name := "Press"; machines.description := "";
     machines.current_status := "Running"; machines.last_updated_at := 20%Z;
     machines.last_updated_by := Some u_admin; machines.department_id := Some d_prod |}.

Definition status_type (i n c : string) (dflt : bool) (o : Z) : status_types.Row :=
  {| status_types.id := i; status_types.name := n; status_types.color := c;
     status_types.is_default := dflt; status_types.is_active := true;
     status_types.display_order := o; status_types.created_by := None |}.

Definition Running : status_types.Row :=
  status_type "05000000-0000-4000-8000-000000000001" "Running" "green" true 1.

Definition Calibration : status_types.Row :=
  status_type "05000000-0000-4000-8000-000000000005" "Calibration" "purple" false 5.

Definition change (i m : uuid) (from to : string) (who : uuid) (t : Z)
    : status_history.Row :=
  {| status_history.id := i; status_history.machine_id := m;
     status_history.status := to; status_history.previous_status := from;
     status_history.comment := ""; status_history.changed_by := who;
     status_history.changed_at := t |}.

Definition h1 : status_history.Row :=
  change "0f000000-0000-4000-8000-000000000001" m_100 "Running" "Idle" u_op 10.

Definition h2 : status_history.Row :=
  change "0f000000-0000-4000-8000-000000000002" m_200 "Idle" "Running" u_admin 20.

(* Status changes that callers try to record. *)
Definition by_operator : status_history.Row :=
  change "0f000000-0000-4000-8000-000000000003" m_100 "Idle" "Running" u_op 30.

Definition by_leader : status_history.Row :=
  change "0f000000-0000-4000-8000-000000000004" m_100 "Idle" "Fault" u_lead 40.

Definition by_outsider : status_history.Row :=
  change "0f000000-0000-4000-8000-000000000005" m_200 "Running" "Fault" u_op 50.

Definition db : Database :=
  {| profiles := [profile u_admin "Ada" admin; profile u_lead "Tarik" team_leader;
                  profile u_op "Oya" operator; profile u_lead2 "Lale" team_leader;
                  profile u_op2 "Onur" operator; profile u_op3 "Orhan" operator];
     departments :=
       [{| departments.id := d_qc; departments.name := "QC";
           departments.description := ""; departments.created_by := Some u_admin |};
        {| departments.id := d_prod; departments.name := "Prod";
           departments.description := ""; departments.created_by := Some u_admin |};
        {| departments.id := d_lab; departments.name := "Lab";
           departments.description := ""; departments.created_by := Some u_admin |}];
     department_leaders :=
       [{| department_leaders.id := "0b000000-0000-4000-8000-000000000001";
           department_leaders.department_id := d_qc;
           department_leaders.user_id := u_lead;
           department_leaders.assigned_by := Some u_admin |};
        {| department_leaders.id := "0b000000-0000-4000-8000-000000000002";
           department_leaders.department_id := d_qc;
           department_leaders.user_id := u_op2;
           department_leaders.assigned_by := Some u_admin |};
        {| department_leaders.id := "0b000000-0000-4000-8000-000000000003";
           department_leaders.department_id := d_lab;
           department_leaders.user_id := u_lead;
           department_leaders.assigned_by := Some u_admin |}];
     machine_operators :=
       [{| machine_operators.id := "0c000000-0000-4000-8000-000000000001";
           machine_operators.machine_id := m_100;
           machine_operators.user_id := u_op;
           machine_operators.assigned_by := Some u_lead |}];
     machines := [M100; M200];
     status_types := [Running; Calibration];
     status_history := [h1; h2] |}.

(* [n] status changes of M100 by the admin, at times 1 .. n. *)
Fixpoint ticks (n : nat) : list status_history.Row :=
  match n with
  | O => []
  | S k =>
      ticks k ++
      [change ("tick-" ++ NilEmpty.string_of_uint (Nat.to_uint n))%string
              m_100 "Idle" "Running" u_admin (Z.of_nat n)]
  end.

Definition db_busy : Database := with_status_history db (ticks 25).

(* The same database with a machine stored under the all-zero id. *)
Definition M000 : machines.Row :=
  {| machines.id := nil_uuid; machines.machine_code := "M000";
     machines.machine_name := "Spare"; machines.description := "";
     machines.current_status := "Idle"; machines.last_updated_at := 5%Z;
     machines.last_updated_by := Some u_admin; machines.department_id := None |}.

Definition h0 : status_history.Row :=
  change "0f000000-0000-4000-8000-000000000009" nil_uuid "Running" "Idle" u_admin 5.

Definition db_with_nil_id : Database :=
  with_status_history (with_machines db [M000; M100; M200]) [h0; h1; h2].

End demo.

(** ** Callers without assignments *)

Definition no_operator_rows (db : Database) (u : uuid) : bool :=
  forallb (fun a => negb (String.eqb (machine_operators.user_id a) u))
          (machine_operators db).

Definition no_leader_rows (db : Database) (u : uuid) : bool :=
  forallb (fun l => negb (String.eqb (department_leaders.user_id l) u))
          (department_leaders db).

(** No machine is stored under the sentinel id and no history row refers
    to it: ids drawn by gen_random_uuid() are version-4 UUIDs, never zero. *)
Definition sentinel_free (db : Database) : bool :=
  forallb (fun m => negb (String.eqb (machines.id m) nil_uuid)) (machines db)
  && forallb (fun h => negb (String.eqb (status_history.machine_id h) nil_uuid))
             (status_history db).

(** ** Further loaders and handlers of the screens *)

Definition by_display_order (a b : status_types.Row) : bool :=
  (status_types.display_order a <=? status_types.display_order b)%Z.

(** [loadStatusTypes] of HistoryPage, StatusHistory and MachineOverview:
    .from('status_types').select('*').eq('is_active', true).order('display_order') *)
Definition loadStatusTypes (db : Database) (user : option uuid)
    : list status_types.Row :=
  Q.run (policy.status_types_select db user) (status_types db)
        (Q.order
           (Q.and_where Q.select_all
              (fun s => Bool.eqb (status_types.is_active s) true))
           by_display_order).

(** A value read from an object literal by a key: a string of the literal,
    or a member every object inherits from Object.prototype (not a string,
    and truthy). *)
Inductive JsValue :=
| JsString (s : string)
| JsInherited (key : string).

Definition Object_prototype_keys : list string :=
  ["constructor"; "__proto__"; "hasOwnProperty"; "isPrototypeOf";
   "propertyIsEnumerable"; "toLocaleString"; "toString"; "valueOf";
   "__defineGetter__"; "__defineSetter__"; "__lookupGetter__"; "__lookupSetter__"].

(** colorMap of [getStatusColor] in HistoryPage and StatusHistory *)
Definition colorMap : list (string * string) :=
  [("green", "bg-green-100 text-green-800 border-green-200");
   ("blue", "bg-blue-100 text-blue-800 border-blue-200");
   ("yellow", "bg-yellow-100 text-yellow-800 border-yellow-200");
   ("red", "bg-red-100 text-red-800 border-red-200");
   ("purple", "bg-purple-100 text-purple-800 border-purple-200");
   ("orange", "bg-orange-100 text-orange-800 border-orange-200");
   ("pink", "bg-pink-100 text-pink-800 border-pink-200");
   ("gray", "bg-gray-100 text-gray-800 border-gray-200")].

Definition gray_classes : string := "bg-gray-100 text-gray-800 border-gray-200".

Definition colorMap_own (key : string) : option string :=
  option_map snd (find (fun kv => String.eqb (fst kv) key) colorMap).

(** [getStatusColor] of HistoryPage and StatusHistory *)
Definition getStatusColor (statusTypes : list status_types.Row) (status : string)
    : JsValue :=
  match find (fun st => String.eqb (status_types.name st) status) statusTypes with
  | None => JsString gray_classes
  | Some statusType =>
      match colorMap_own (status_types.color statusType) with
      | Some classes => JsString classes
      | None =>
          if mem (status_types.color statusType) Object_prototype_keys
          then JsInherited (status_types.color statusType)
          else JsString gray_classes (* colorMap[...] || colorMap.gray *)
      end
  end.

Module MachineOverview.

Definition loadMachines (db : Database) (user : option uuid) : list machines.Row :=
  Q.run (policy.machines_select db user) (machines db)
        (Q.order Q.select_all by_machine_code).

Definition loadDepartments (db : Database) (user : option uuid)
    : list departments.Row :=
  Q.run (policy.departments_select user) (departments db)
        (Q.order Q.select_all by_name).

End MachineOverview.

Module MachineManagementView.

(** availableDepartments: the departments offered by the "add machine" form *)
Definition availableDepartments (db : Database) (user : option uuid)
    (st : MachineManagement.State) : list departments.Row :=
  match role_of db user with
  | Some admin => MachineManagement.departments_ st
  | _ =>
      filter (fun dept => mem (departments.id dept)
                              (MachineManagement.teamLeaderDepartments st))
             (MachineManagement.departments_ st)
  end.

End MachineManagementView.

Module StatusTypeManagementForm.

Record FormData := {
  name : string;
  color : string;
}.

(* .from('status_types').select('*').order('display_order') *)
Definition loadStatusTypes (db : Database) (user : option uuid)
    : list status_types.Row :=
  Q.run (policy.status_types_select db user) (status_types db)
        (Q.order Q.select_all by_display_order).

(* Math.max(...statusTypes.map(s => s.display_order), 0) *)
Definition maxOrder (statusTypes : list status_types.Row) : Z :=
  fold_right Z.max 0%Z (map status_types.display_order statusTypes).

(* The row of a new status type; is_default and is_active take the column
   defaults false and true, [id] is drawn by gen_random_uuid(). *)
Definition new_row (user : option uuid) (formData : FormData)
    (statusTypes : list status_types.Row) (gen_random_uuid : uuid)
    : status_types.Row :=
  {| status_types.id := gen_random_uuid;
     status_types.name := name formData;
     status_types.color := color formData;
     status_types.is_default := false;
     status_types.is_active := true;
     status_types.display_order := (maxOrder statusTypes + 1)%Z;
     status_types.created_by := user |}.

Definition handleSubmit (db : Database) (user : option uuid)
    (editingStatus : option status_types.Row) (formData : FormData)
    (statusTypes : list status_types.Row) (gen_random_uuid : uuid) : Result :=
  match editingStatus with
  | Some e =>
      update_status_type_name db user (status_types.id e)
                              (name formData) (color formData)
  | None =>
      insert_status_type db user (new_row user formData statusTypes gen_random_uuid)
  end.

End StatusTypeManagementForm.

Module DepartmentManagementForm.

Definition byte (c : Ascii.ascii) : N := Ascii.N_of_ascii c.

(** [!s.trim()]: the string holds nothing but ECMAScript white space and
    line terminators (read in their UTF-8 encoding): U+0009 .. U+000D,
    U+0020, U+00A0, U+1680, U+2000 .. U+200A, U+2028, U+2029, U+202F, U+205F,
    U+3000, U+FEFF. *)
Fixpoint blank (s : string) : bool :=
  match s with
  | EmptyString => true
  | String c1 r1 =>
      if ((9 <=? byte c1) && (byte c1 <=? 13) || (byte c1 =? 32))%N then blank r1
      else
        match r1 with
        | String c2 r2 =>
            if ((byte c1 =? 194) && (byte c2 =? 160))%N then blank r2
            else
              match r2 with
              | String c3 r3 =>
                  if ((byte c1 =? 225) && (byte c2 =? 154) && (byte c3 =? 128)
                      || (byte c1 =? 226) && (byte c2 =? 128)
                         && ((128 <=? byte c3) && (byte c3 <=? 138)
                             || (byte c3 =? 168) || (byte c3 =? 169)
                             || (byte c3 =? 175))
                      || (byte c1 =? 226) && (byte c2 =? 129) && (byte c3 =? 159)
                      || (byte c1 =? 227) && (byte c2 =? 128) && (byte c3 =? 128)
                      || (byte c1 =? 239) && (byte c2 =? 187) && (byte c3 =? 191))%N
                  then blank r3
                  else false
              | EmptyString => false
              end
        | EmptyString => false
        end
  end.

(* [id] is drawn by gen_random_uuid() *)
Definition handleAddDepartment (db : Database) (user : option uuid)
    (newDeptName newDeptDesc : string) (gen_random_uuid : uuid) : Result :=
  if blank newDeptName then inr db (* return *)
  else insert_department db user
         {| departments.id := gen_random_uuid;
            departments.name := newDeptName;
            departments.description := newDeptDesc;
            departments.created_by := user |}.

End DepartmentManagementForm.

(** The other copy of the machine management screen: its machine list is
    built from one query, and the form offers a caller who is no admin the
    departments that hold one of the listed machines. *)
Module MachineManagement2.

Definition loadData (db : Database) (user : option uuid)
    : list departments.Row * list machines.Row :=
  let depts :=
    Q.run (policy.departments_select user) (departments db)
          (Q.order Q.select_all by_name) in
  let machineQuery := Q.order Q.select_all by_machine_code in
  let machineQuery :=
    match role_of db user with
    | Some team_leader =>
        let myDepts :=
          Q.run (policy.department_leaders_select db user) (department_leaders db)
                (Q.and_where Q.select_all
                   (fun l => option_eqb user (department_leaders.user_id l))) in
        let deptIds := map department_leaders.department_id myDepts in
        if (0 <? length deptIds)%nat
        then Q.in_nullable machineQuery machines.department_id deptIds
        else Q.eq machineQuery machines.id nil_uuid
    | _ => machineQuery
    end in
  (depts, Q.run (policy.machines_select db user) (machines db) machineQuery).

Definition availableDepartments (db : Database) (user : option uuid)
    (departments_ : list departments.Row) (machines_ : list machines.Row)
    : list departments.Row :=
  match role_of db user with
  | Some admin => departments_
  | _ =>
      filter (fun dept =>
                existsb (fun m => option_eqb (machines.department_id m)
                                             (departments.id dept))
                        machines_)
             departments_
  end.

End MachineManagement2.


(** ** Foreign keys of status_history and machine_operators *)

Definition history_refers_to_machines (db : Database) : bool :=
  forallb (fun h => mem (status_history.machine_id h) (map machines.id (machines db)))
          (status_history db).

(** * Properties *)

(** ** Sorting and limiting *)

Section Sorting.
Context {R : Type} (leb : R -> R -> bool).
Hypothesis leb_total : forall a b, leb a b = true \/ leb b a = true.
Hypothesis leb_trans : forall a b c, leb a b = true -> leb b c = true -> leb a c = true.

Lemma insert_sorted_perm (x : R) (l : list R) :
  Permutation (Q.insert_sorted leb x l) (x :: l).
Proof.
  induction l as [|y t IH]; simpl.
  - apply Permutation_refl.
  - destruct (leb x y).
    + apply Permutation_refl.
    + eapply perm_trans; [apply perm_skip, IH | apply perm_swap].
Qed.

Lemma sort_rows_perm (l : list R) : Permutation (Q.sort_rows leb l) l.
Proof.
  induction l as [|x t IH]; simpl.
  - apply perm_nil.
  - eapply perm_trans; [apply insert_sorted_perm | apply perm_skip, IH].
Qed.

Lemma insert_sorted_sorted (x : R) (l : list R) :
  StronglySorted (fun a b => leb a b = true) l ->
  StronglySorted (fun a b => leb a b = true) (Q.insert_sorted leb x l).
Proof.
  induction 1 as [|y t Hs IH Hall]; simpl.
  - repeat constructor.
  - destruct (leb x y) eqn:E.
    + constructor; [constructor; assumption|].
      constructor; [assumption|].
      eapply Forall_impl; [|exact Hall].
      intros z Hz; eapply leb_trans; eassumption.
    + constructor; [assumption|].
      assert (Hyx : leb y x = true) by (destruct (leb_total x y); congruence).
      eapply Permutation_Forall; [apply Permutation_sym, insert_sorted_perm|].
      constructor; assumption.
Qed.

Lemma sort_rows_sorted (l : list R) :
  StronglySorted (fun a b => leb a b = true) (Q.sort_rows leb l).
Proof.
  induction l as [|x t IH]; simpl.
  - constructor.
  - apply insert_sorted_sorted, IH.
Qed.

Lemma sorted_app_le (l1 l2 : list R) :
  StronglySorted (fun a b => leb a b = true) (l1 ++ l2) ->
  forall x y, In x l1 -> In y l2 -> leb x y = true.
Proof.
  induction l1 as [|a t IH]; simpl; intros Hs x y Hx Hy.
  - contradiction.
  - inversion Hs as [|? ? Hs' Hall]; subst.
    destruct Hx as [<-|Hx].
    + rewrite Forall_forall in Hall. apply Hall, in_or_app; right; exact Hy.
    + eapply IH; eassumption.
Qed.

Lemma sorted_app_l (l1 l2 : list R) :
  StronglySorted (fun a b => leb a b = true) (l1 ++ l2) ->
  StronglySorted (fun a b => leb a b = true) l1.
Proof.
  induction l1 as [|a t IH]; simpl; intros Hs.
  - constructor.
  - inversion Hs as [|? ? Hs' Hall]; subst.
    constructor; [apply IH, Hs'|].
    apply Forall_app in Hall. apply Hall.
Qed.

Lemma sorted_firstn (n : nat) (l : list R) :
  StronglySorted (fun a b => leb a b = true) l ->
  StronglySorted (fun a b => leb a b = true) (firstn n l).
Proof.
  intros Hs. apply (sorted_app_l _ (skipn n l)).
  rewrite firstn_skipn. exact Hs.
Qed.

End Sorting.

Lemma by_changed_at_desc_spec (a b : status_history.Row) :
  by_changed_at_desc a b = true <->
  (status_history.changed_at b <= status_history.changed_at a)%Z.
Proof. unfold by_changed_at_desc. apply Z.leb_le. Qed.

Lemma by_changed_at_desc_total (a b : status_history.Row) :
  by_changed_at_desc a b = true \/ by_changed_at_desc b a = true.
Proof. rewrite !by_changed_at_desc_spec. lia. Qed.

Lemma by_changed_at_desc_trans (a b c : status_history.Row) :
  by_changed_at_desc a b = true -> by_changed_at_desc b c = true ->
  by_changed_at_desc a c = true.
Proof. rewrite !by_changed_at_desc_spec. lia. Qed.

Lemma filter_all {R : Type} (p : R -> bool) (l : list R) :
  (forall x, In x l -> p x = true) -> filter p l = l.
Proof.
  induction l as [|x t IH]; simpl; intros H; [reflexivity|].
  rewrite (H x (or_introl eq_refl)). f_equal. apply IH. intros; apply H; now right.
Qed.

Lemma filter_none {R : Type} (p : R -> bool) (l : list R) :
  (forall x, In x l -> p x = false) -> filter p l = [].
Proof.
  induction l as [|x t IH]; simpl; intros H; [reflexivity|].
  rewrite (H x (or_introl eq_refl)). apply IH. intros; apply H; now right.
Qed.

Lemma StronglySorted_weaken {R : Type} (P Q : R -> R -> Prop) (l : list R) :
  (forall a b, P a b -> Q a b) -> StronglySorted P l -> StronglySorted Q l.
Proof.
  intros HPQ; induction 1 as [|a t Hs IH Hall]; constructor; [exact IH|].
  eapply Forall_impl; [|exact Hall]. intros b; apply HPQ.
Qed.

Lemma status_history_select_all (user : option uuid) (h : status_history.Row) :
  policy.status_history_select user h = true.
Proof. destruct user; reflexivity. Qed.

(** What the history panel asks the server for. *)
Lemma historyData_eq (db : Database) (user : option uuid) (machineId : uuid) :
  StatusHistory.historyData db user machineId =
  firstn 20
    (Q.sort_rows by_changed_at_desc
       (filter (fun h => String.eqb (status_history.machine_id h) machineId)
               (status_history db))).
Proof.
  unfold StatusHistory.historyData, Q.run; simpl.
  rewrite (filter_all (policy.status_history_select user))
    by (intros; apply status_history_select_all).
  reflexivity.
Qed.

Lemma loadHistory_entries (db : Database) (user : option uuid) (machineId : uuid) :
  map StatusHistory.entry (StatusHistory.loadHistory db user machineId) =
  StatusHistory.historyData db user machineId.
Proof.
  unfold StatusHistory.loadHistory. rewrite map_map; simpl. apply map_id.
Qed.

(** C10. The history panel of a machine shows at most 20 records: the
    records of that machine sorted by changed_at, newest first, cut after
    the 20th.  Whatever is not shown is a record of the same machine that is
    no newer than any record shown; it stays in the table. *)
Theorem machine_history_latest_20 (db : Database) (user : option uuid)
    (machineId : uuid) :
  let shown := map StatusHistory.entry (StatusHistory.loadHistory db user machineId) in
  let all := filter (fun h => String.eqb (status_history.machine_id h) machineId)
                    (status_history db) in
  (length shown <= 20)%nat /\
  length shown = Nat.min 20 (length all) /\
  StronglySorted
    (fun a b => (status_history.changed_at b <= status_history.changed_at a)%Z)
    shown /\
  exists older,
    Permutation (shown ++ older) all /\
    forall h o, In h shown -> In o older ->
                (status_history.changed_at o <= status_history.changed_at h)%Z.
Proof.
  intros shown all. subst shown.
  rewrite loadHistory_entries, historyData_eq. fold all.
  set (sorted := Q.sort_rows by_changed_at_desc all).
  assert (Hperm : Permutation sorted all) by apply sort_rows_perm.
  assert (Hs : StronglySorted (fun a b => by_changed_at_desc a b = true) sorted)
    by (apply sort_rows_sorted;
        [apply by_changed_at_desc_total | apply by_changed_at_desc_trans]).
  repeat split.
  - apply firstn_le_length.
  - rewrite length_firstn. f_equal. apply Permutation_length, Hperm.
  - eapply StronglySorted_weaken.
    + intros a b H; apply by_changed_at_desc_spec; exact H.
    + apply sorted_firstn, Hs.
  - exists (skipn 20 sorted). split.
    + rewrite firstn_skipn. exact Hperm.
    + intros h o Hh Ho. apply by_changed_at_desc_spec.
      apply (sorted_app_le by_changed_at_desc (firstn 20 sorted) (skipn 20 sorted));
        [rewrite firstn_skipn; exact Hs | exact Hh | exact Ho].
Qed.

(** Twenty-five changes of M100 at times 1 .. 25: the panel shows the
    changes of times 25 down to 6, and all twenty-five stay stored. *)
Lemma busy_machine_history :
  map (fun e => status_history.changed_at (StatusHistory.entry e))
      (StatusHistory.loadHistory demo.db_busy None demo.m_100)
  = [25; 24; 23; 22; 21; 20; 19; 18; 17; 16; 15; 14; 13; 12; 11; 10; 9; 8; 7; 6]%Z /\
  length (status_history demo.db_busy) = 25%nat.
Proof. split; vm_compute; reflexivity. Qed.

(** ** Statements and the status_history table *)

Lemma with_status_history_same (db : Database) :
  with_status_history db (status_history db) = db.
Proof. destruct db; reflexivity. Qed.

Lemma update_status_history_noop (db : Database) (uid : option uuid) (id : uuid)
    (patch : status_history.Row -> status_history.Row) :
  update_status_history db uid id patch = inr db.
Proof.
  unfold update_status_history, policy.status_history_update_using; simpl.
  rewrite map_id. now rewrite with_status_history_same.
Qed.

Lemma delete_status_history_noop (db : Database) (uid : option uuid) (id : uuid) :
  delete_status_history db uid id = inr db.
Proof.
  unfold delete_status_history, policy.status_history_delete_using; simpl.
  rewrite filter_all by reflexivity. now rewrite with_status_history_same.
Qed.

(** What one statement can do to the history table: nothing, append the
    row of an admitted INSERT, or drop the rows of a machine an admin
    deletes. *)
Inductive history_effect (db : Database) (uid : option uuid)
    : Statement -> list status_history.Row -> Prop :=
| effect_none s :
    history_effect db uid s (status_history db)
| effect_insert h :
    policy.status_history_insert_check db uid h = true ->
    history_effect db uid (InsertStatusHistory h) (status_history db ++ [h])
| effect_cascade id :
    has_role db uid [admin] = true ->
    history_effect db uid (DeleteMachine id)
      (filter (fun h => negb (String.eqb (status_history.machine_id h) id))
              (status_history db)).

Lemma exec_history_effect (db : Database) (uid : option uuid) (s : Statement) :
  history_effect db uid s (status_history (state_after db (exec db uid s))).
Proof.
  destruct s; cbn [exec];
    try solve
      [ match goal with
        | |- context [state_after _ (?f _ _ _)] => unfold f
        | |- context [state_after _ (?f _ _ _ _)] => unfold f
        | |- context [state_after _ (?f _ _ _ _ _)] => unfold f
        end; cbv zeta;
        repeat match goal with
               | |- context [if ?c then _ else _] => destruct c eqn:?
               end; simpl; apply effect_none ].
  - (* DeleteMachine *)
    unfold delete_machine; cbv zeta.
    match goal with
    | |- context [if ?c then _ else _] => destruct c eqn:E
    end; simpl; [|apply effect_none].
    apply effect_cascade.
    apply existsb_exists in E. destruct E as [m [_ Hm]].
    apply andb_true_iff in Hm. apply Hm.
  - (* InsertStatusHistory *)
    unfold insert_status_history.
    destruct (policy.status_history_insert_check db uid h) eqn:E; simpl;
      [|apply effect_none].
    match goal with
    | |- context [if ?c then _ else _] => destruct c
    end; simpl; [apply effect_none | apply effect_insert, E].
  - rewrite update_status_history_noop. apply effect_none.
  - rewrite delete_status_history_noop. apply effect_none.
Qed.

Lemma insert_check_attributed (db : Database) (uid : option uuid)
    (h : status_history.Row) :
  policy.status_history_insert_check db uid h = true ->
  uid = Some (status_history.changed_by h).
Proof.
  unfold policy.status_history_insert_check. intros H.
  apply andb_true_iff in H. destruct H as [H _].
  destruct uid as [u|]; simpl in H; [|discriminate].
  apply String.eqb_eq in H. now subst.
Qed.

(** C9. An INSERT into status_history that the server accepts carries the
    caller's own identity in changed_by, and appends exactly that row. *)
Theorem history_insert_attributed (db : Database) (uid : option uuid)
    (h : status_history.Row) (db' : Database) :
  insert_status_history db uid h = inr db' ->
  uid = Some (status_history.changed_by h) /\
  status_history db' = status_history db ++ [h].
Proof.
  unfold insert_status_history.
  destruct (policy.status_history_insert_check db uid h) eqn:E; simpl;
    [|discriminate].
  match goal with
  | |- context [if ?c then _ else _] => destruct c
  end; [discriminate|].
  intros H; injection H as <-. split; [|reflexivity].
  apply (insert_check_attributed db), E.
Qed.

Lemma history_insert_attributed_witness :
  insert_status_history demo.db (Some demo.u_op) demo.by_operator
    = inr (with_status_history demo.db [demo.h1; demo.h2; demo.by_operator]) /\
  Some demo.u_op = Some (status_history.changed_by demo.by_operator) /\
  [demo.h1; demo.h2; demo.by_operator] = status_history demo.db ++ [demo.by_operator].
Proof.
  split; [reflexivity|].
  apply (history_insert_attributed demo.db (Some demo.u_op) demo.by_operator
           (with_status_history demo.db [demo.h1; demo.h2; demo.by_operator])).
  reflexivity.
Defined.

(** X19. Whatever statement is issued, a history row that was not there before
    names the caller in changed_by. *)
Lemma new_history_rows_attributed (db : Database) (uid : option uuid)
    (s : Statement) (h : status_history.Row) :
  In h (status_history (state_after db (exec db uid s))) ->
  ~ In h (status_history db) ->
  uid = Some (status_history.changed_by h).
Proof.
  intros Hin Hnew.
  destruct (exec_history_effect db uid s) as [s|h' Hc|id Hadm].
  - contradiction.
  - apply in_app_or in Hin. destruct Hin as [Hin|[<-|[]]]; [contradiction|].
    apply (insert_check_attributed db), Hc.
  - apply filter_In in Hin. destruct Hin as [Hin _]. contradiction.
Qed.

(** C4, as the code has it.  No caller, admin included, can change or
    remove a history row through the status_history table; a row leaves
    the table only with its machine, when an admin deletes that machine. *)
Theorem history_kept_unless_machine_deleted (db : Database) (uid : option uuid)
    (s : Statement) (h : status_history.Row) :
  In h (status_history db) ->
  In h (status_history (state_after db (exec db uid s))) \/
  (s = DeleteMachine (status_history.machine_id h) /\ has_role db uid [admin] = true).
Proof.
  intros Hin.
  destruct (exec_history_effect db uid s) as [s|h' Hc|id Hadm].
  - left; exact Hin.
  - left; apply in_or_app; left; exact Hin.
  - destruct (String.eqb (status_history.machine_id h) id) eqn:E.
    + right. apply String.eqb_eq in E. subst id. split; [reflexivity|exact Hadm].
    + left. apply filter_In. split; [exact Hin|]. now rewrite E.
Qed.

Lemma history_kept_unless_machine_deleted_witness :
  In demo.h1 (status_history demo.db) /\
  In demo.h1
     (status_history
        (state_after demo.db
           (exec demo.db (Some demo.u_admin)
                 (DeleteStatusHistory (status_history.id demo.h1))))).
Proof.
  assert (Hin : In demo.h1 (status_history demo.db)) by (left; reflexivity).
  split; [exact Hin|].
  destruct (history_kept_unless_machine_deleted demo.db (Some demo.u_admin)
              (DeleteStatusHistory (status_history.id demo.h1)) demo.h1 Hin)
    as [H|[H _]]; [exact H | discriminate H].
Defined.

(** C4, as stated, fails: the admin deletes machine M100 on the management
    screen and its history row goes with it. *)
Lemma history_row_lost_with_machine :
  In demo.h1 (status_history demo.db) /\
  status_history
    (state_after demo.db
       (MachineManagement.handleDelete demo.db (Some demo.u_admin) demo.m_100))
  = [demo.h2].
Proof. split; [left; reflexivity | reflexivity]. Qed.

(** The migration's backfill rewrites the previous_status of a stored row. *)
Lemma backfill_rewrites_stored_row :
  let old := demo.change "0f000000-0000-4000-8000-000000000007" demo.m_100
                         "" "Fault" demo.u_op 30 in
  status_history
    (backfill_previous_status (with_status_history demo.db [demo.h1; old]))
  = [demo.h1;
     demo.change "0f000000-0000-4000-8000-000000000007" demo.m_100
                 "Idle" "Fault" demo.u_op 30].
Proof. reflexivity. Qed.

(** ** Roles *)

Lemma has_role_admin (db : Database) (uid : option uuid) :
  has_role db uid [admin] = true <-> role_of db uid = Some admin.
Proof.
  unfold has_role. destruct (role_of db uid) as [[]|]; simpl;
    split; intros H; try reflexivity; discriminate H.
Qed.

Lemma has_role_admin_or_leader (db : Database) (uid : option uuid) :
  has_role db uid [admin; team_leader] = true <->
  role_of db uid = Some admin \/ role_of db uid = Some team_leader.
Proof.
  unfold has_role. destruct (role_of db uid) as [[]|]; simpl; split;
    intros H; try reflexivity; try discriminate H; auto;
    destruct H as [H|H]; discriminate H.
Qed.

Lemma has_role_admin_or_operator (db : Database) (uid : option uuid) :
  has_role db uid [admin; operator] = true <->
  role_of db uid = Some admin \/ role_of db uid = Some operator.
Proof.
  unfold has_role. destruct (role_of db uid) as [[]|]; simpl; split;
    intros H; try reflexivity; try discriminate H; auto;
    destruct H as [H|H]; discriminate H.
Qed.

Lemma role_of_anon (db : Database) : role_of db None = None.
Proof.
  unfold role_of. induction (profiles db) as [|p t IH]; [reflexivity|exact IH].
Qed.

(** ** Recording a status change *)

(** The INSERT policy of status_history looks at the caller's identity and
    role only; the machine and its department play no part. *)
Lemma status_history_insert_check_iff (db : Database) (uid : option uuid)
    (h : status_history.Row) :
  policy.status_history_insert_check db uid h = true <->
  uid = Some (status_history.changed_by h) /\
  (role_of db uid = Some admin \/ role_of db uid = Some operator).
Proof.
  unfold policy.status_history_insert_check.
  rewrite andb_true_iff, has_role_admin_or_operator.
  split; intros [H1 H2]; split; try exact H2.
  - destruct uid as [u|]; simpl in H1; [|discriminate].
    apply String.eqb_eq in H1. now subst.
  - subst uid; simpl. apply String.eqb_refl.
Qed.

(** C3, as the code has it.  For a caller who is not a team leader, the
    history row of a status change passes the guard exactly when the caller
    has a profile and names itself in changed_by; the machine of the row and
    the caller's assignments are not consulted.  A row that passes is stored
    unless it breaks a key or a foreign key; a refused row changes nothing. *)
Theorem status_change_recorded_by_role (db : Database) (uid : option uuid)
    (h : status_history.Row) :
  role_of db uid <> Some team_leader ->
  insert_status_history db uid h =
  (if option_eqb uid (status_history.changed_by h)
      && match role_of db uid with Some _ => true | None => false end
   then if status_history_constraints_violated db h
        then inl ConstraintViolation
        else inr (with_status_history db (status_history db ++ [h]))
   else inl AuthorizationDenied) /\
  (forall e, insert_status_history db uid h = inl e ->
             state_after db (insert_status_history db uid h) = db).
Proof.
  intros Hnl. split; [|intros e ->; reflexivity].
  unfold insert_status_history, policy.status_history_insert_check, has_role.
  destruct (option_eqb uid (status_history.changed_by h)); simpl; [|reflexivity].
  destruct (role_of db uid) as [[]|]; simpl; try reflexivity.
  now contradiction Hnl.
Qed.

Lemma status_change_recorded_by_role_witness :
  role_of demo.db (Some demo.u_op) <> Some team_leader /\
  insert_status_history demo.db (Some demo.u_op) demo.by_outsider
  = inr (with_status_history demo.db [demo.h1; demo.h2; demo.by_outsider]).
Proof.
  assert (Hnl : role_of demo.db (Some demo.u_op) <> Some team_leader)
    by discriminate.
  split; [exact Hnl|].
  exact (proj1 (status_change_recorded_by_role demo.db (Some demo.u_op)
                  demo.by_outsider Hnl)).
Defined.

(** C3, as stated, fails: Oya operates M100 only, M200 is outside her scope
    (the UPDATE policy of machines refuses her there), and her history row
    for M200 is stored. *)
Lemma operator_out_of_scope_records_change :
  role_of demo.db (Some demo.u_op) = Some operator /\
  operates_machine demo.db (Some demo.u_op) (machines.id demo.M200) = false /\
  policy.machines_update demo.db (Some demo.u_op) demo.M200 = false /\
  status_history.machine_id demo.by_outsider = machines.id demo.M200 /\
  insert_status_history demo.db (Some demo.u_op) demo.by_outsider
    = inr (with_status_history demo.db [demo.h1; demo.h2; demo.by_outsider]).
Proof. repeat split; reflexivity. Qed.

(** The team leader.  Tarik leads the department of M100 and passes the
    UPDATE policy of machines for it; the INSERT policy of status_history,
    written before the role existed, refuses the history row of his change. *)
Lemma leader_in_scope_cannot_record_change :
  role_of demo.db (Some demo.u_lead) = Some team_leader /\
  leads_department_of demo.db (Some demo.u_lead) (machines.department_id demo.M100)
    = true /\
  policy.machines_update demo.db (Some demo.u_lead) demo.M100 = true /\
  status_history.machine_id demo.by_leader = machines.id demo.M100 /\
  insert_status_history demo.db (Some demo.u_lead) demo.by_leader
    = inl AuthorizationDenied.
Proof. repeat split; reflexivity. Qed.

(** A refused INSERT leaves the database as it was. *)
Lemma insert_status_history_rejected_unchanged (db : Database)
    (uid : option uuid) (h : status_history.Row) (e : Error) :
  insert_status_history db uid h = inl e ->
  state_after db (insert_status_history db uid h) = db.
Proof. intros ->; reflexivity. Qed.

(** ** Machine operator assignments *)

(** C5, as the code has it.  An assignment row is written or removed for a
    caller whose role is admin or team_leader, whichever department the
    machine belongs to; every other caller is refused on INSERT and deletes
    nothing. *)
Theorem machine_operators_managed_by_role (db : Database) (uid : option uuid)
    (a : machine_operators.Row) (id : uuid) :
  (insert_machine_operator db uid a <> inl AuthorizationDenied <->
   role_of db uid = Some admin \/ role_of db uid = Some team_leader) /\
  delete_machine_operator db uid id =
  inr (if has_role db uid [admin; team_leader]
       then with_machine_operators db
              (filter (fun x => negb (String.eqb (machine_operators.id x) id))
                      (machine_operators db))
       else db).
Proof.
  split.
  - rewrite <- has_role_admin_or_leader.
    unfold insert_machine_operator, policy.machine_operators_write.
    destruct (has_role db uid [admin; team_leader]); simpl.
    + split; [reflexivity|]. intros _.
      match goal with
      | |- context [if ?c then _ else _] => destruct c
      end; discriminate.
    + split; [intros H; now contradiction H | discriminate].
  - unfold delete_machine_operator, policy.machine_operators_write.
    destruct (has_role db uid [admin; team_leader]); simpl; [reflexivity|].
    rewrite filter_all by reflexivity.
    destruct db; reflexivity.
Qed.

(** C5, as stated, fails: Tarik leads QC and Lab, M200 belongs to Prod, and
    his assignment of Oya to M200 is stored. *)
Lemma leader_assigns_operator_outside_department :
  role_of demo.db (Some demo.u_lead) = Some team_leader /\
  leads_department_of demo.db (Some demo.u_lead) (machines.department_id demo.M200)
    = false /\
  exists db',
    insert_machine_operator demo.db (Some demo.u_lead)
      {| machine_operators.id := "0c000000-0000-4000-8000-000000000002";
         machine_operators.machine_id := machines.id demo.M200;
         machine_operators.user_id := demo.u_op;
         machine_operators.assigned_by := Some demo.u_lead |} = inr db' /\
    length (machine_operators db') = 2%nat.
Proof. repeat split; try reflexivity. eexists; split; reflexivity. Qed.

(** ** Creating a machine *)

(** C6. An admin's INSERT into machines passes the guard for any
    department; a team leader's passes exactly when the new row's department
    is one the caller leads, and is refused with [AuthorizationDenied]
    otherwise.  A row that passes the guard is stored unless it breaks a key
    or a foreign key. *)
Theorem machine_creation_guard (db : Database) (uid : option uuid)
    (m : machines.Row) :
  let stored :=
    if machines_constraints_violated db m then inl ConstraintViolation
    else inr (with_machines db (machines db ++ [m])) in
  insert_machine db uid m =
  match role_of db uid with
  | Some admin => stored
  | Some team_leader =>
      if leads_department_of db uid (machines.department_id m)
      then stored else inl AuthorizationDenied
  | Some operator | None => inl AuthorizationDenied
  end.
Proof.
  unfold insert_machine, policy.machines_insert_check, has_role.
  destruct (role_of db uid) as [[]|]; simpl; try reflexivity.
  destruct (leads_department_of db uid (machines.department_id m)); reflexivity.
Qed.

(** The scenario of the specification, on the management form: Tarik leads
    QC and adds M101 there; his M201 for Prod is refused; the admin adds it. *)
Lemma leader_creates_machine_in_own_department :
  exists db',
    MachineManagement.handleSubmit demo.db (Some demo.u_lead)
      {| MachineManagement.machine_code := "M101";
         MachineManagement.machine_name := "Caliper";
         MachineManagement.description := "";
         MachineManagement.department_id := demo.d_qc |}
      "0e000000-0000-4000-8000-000000000101" 60%Z = inr db' /\
    map machines.machine_code (machines db') = ["M100"; "M200"; "M101"].
Proof. eexists; split; reflexivity. Qed.

Lemma leader_refused_in_other_department :
  MachineManagement.handleSubmit demo.db (Some demo.u_lead)
    {| MachineManagement.machine_code := "M201";
       MachineManagement.machine_name := "Lathe";
       MachineManagement.description := "";
       MachineManagement.department_id := demo.d_prod |}
    "0e000000-0000-4000-8000-000000000201" 60%Z = inl AuthorizationDenied.
Proof. reflexivity. Qed.

Lemma admin_creates_machine_anywhere :
  exists db',
    MachineManagement.handleSubmit demo.db (Some demo.u_admin)
      {| MachineManagement.machine_code := "M201";
         MachineManagement.machine_name := "Lathe";
         MachineManagement.description := "";
         MachineManagement.department_id := demo.d_prod |}
      "0e000000-0000-4000-8000-000000000201" 60%Z = inr db' /\
    map machines.machine_code (machines db') = ["M100"; "M200"; "M201"].
Proof. eexists; split; reflexivity. Qed.

(** ** Deleting a status type *)

Lemma in_filter_keep {R : Type} (p : R -> bool) (x : R) (l : list R) :
  In x l -> p x = true -> In x (filter p l).
Proof. intros; apply filter_In; split; assumption. Qed.

(** C7. A status type flagged is_default survives every DELETE, whoever
    issues it and whichever row the screen holds; the delete button on the
    row itself does not even reach the server.  An admin can still switch the
    row to inactive, and it stays in the catalog as a default. *)
Theorem default_status_type_not_deletable (db : Database) (s : status_types.Row) :
  In s (status_types db) ->
  status_types.is_default s = true ->
  (forall user id,
      In s (status_types (state_after db (delete_status_type db user id)))) /\
  (forall user status,
      In s (status_types
              (state_after db (StatusTypeManagement.handleDelete db user status)))) /\
  (forall user, StatusTypeManagement.handleDelete db user s = inr db) /\
  (forall user,
      role_of db user = Some admin ->
      let db' := state_after db
                   (update_status_type_active db user (status_types.id s) false) in
      In (set_is_active s false) (status_types db') /\
      status_types.is_active (set_is_active s false) = false /\
      status_types.is_default (set_is_active s false) = true).
Proof.
  intros Hin Hdef.
  assert (Hdel : forall user id,
             In s (status_types (state_after db (delete_status_type db user id)))).
  { intros user id. unfold delete_status_type; simpl.
    apply in_filter_keep; [exact Hin|].
    unfold policy.status_types_delete_using. rewrite Hdef; simpl.
    now rewrite andb_false_r. }
  split; [exact Hdel|]. split; [|split].
  - intros user status. unfold StatusTypeManagement.handleDelete.
    destruct (status_types.is_default status); [exact Hin | apply Hdel].
  - intros user. unfold StatusTypeManagement.handleDelete. now rewrite Hdef.
  - intros user Hadm; simpl. split; [|split; [reflexivity | exact Hdef]].
    apply in_map_iff. exists s. split; [|exact Hin].
    unfold policy.status_types_write.
    rewrite (proj2 (has_role_admin db user) Hadm), String.eqb_refl. reflexivity.
Qed.

Lemma default_status_type_not_deletable_witness :
  In demo.Running (status_types demo.db) /\
  status_types.is_default demo.Running = true /\
  In demo.Running
     (status_types
        (state_after demo.db
           (delete_status_type demo.db (Some demo.u_admin)
                               (status_types.id demo.Running)))) /\
  StatusTypeManagement.handleDelete demo.db (Some demo.u_admin) demo.Running
    = inr demo.db.
Proof.
  assert (Hin : In demo.Running (status_types demo.db)) by (left; reflexivity).
  destruct (default_status_type_not_deletable demo.db demo.Running Hin
              Logic.eq_refl) as [Hdel [_ [Hbtn _]]].
  split; [exact Hin|]. split; [reflexivity|]. split.
  - apply Hdel.
  - apply Hbtn.
Defined.

(** The deactivation button, pressed by the admin on an active default. *)
Lemma admin_deactivates_default_status_type :
  status_types
    (state_after demo.db
       (StatusTypeManagement.handleToggleActive demo.db (Some demo.u_admin)
                                                demo.Running))
  = [set_is_active demo.Running false; demo.Calibration].
Proof. reflexivity. Qed.

(** A status type that is not a default is deleted by the admin. *)
Lemma admin_deletes_custom_status_type :
  status_types
    (state_after demo.db
       (StatusTypeManagement.handleDelete demo.db (Some demo.u_admin)
                                          demo.Calibration))
  = [demo.Running].
Proof. reflexivity. Qed.

(** ** Changing a role *)

Lemma with_profiles_same (db : Database) : with_profiles db (profiles db) = db.
Proof. destruct db; reflexivity. Qed.

Lemma map_unchanged {R : Type} (hit : R -> bool) (f : R -> R) (l : list R) :
  (forall x, In x l -> hit x = false) ->
  map (fun x => if hit x then f x else x) l = l.
Proof.
  induction l as [|x t IH]; simpl; intros H; [reflexivity|].
  rewrite (H x (or_introl Logic.eq_refl)). f_equal. apply IH.
  intros; apply H; now right.
Qed.

(** The only UPDATE policy of profiles admits the caller's own row, so an
    UPDATE aimed at someone else's row touches nothing and reports no error. *)
Lemma update_profile_of_other_is_noop (db : Database) (u id : uuid)
    (patch : profiles.Row -> profiles.Row) :
  u <> id -> update_profile db (Some u) id patch = inr db.
Proof.
  intros Hne. unfold update_profile; cbv zeta.
  assert (Hhit : forall p, In p (profiles db) ->
            policy.profiles_update_using (Some u) p
            && String.eqb (profiles.id p) id = false).
  { intros p _. unfold policy.profiles_update_using; simpl.
    destruct (String.eqb u (profiles.id p)) eqn:E1; [|reflexivity].
    destruct (String.eqb (profiles.id p) id) eqn:E2; [|reflexivity].
    apply String.eqb_eq in E1, E2. congruence. }
  rewrite (filter_none _ _ Hhit); simpl.
  rewrite (map_unchanged _ _ _ Hhit). now rewrite with_profiles_same.
Qed.

(** X3. The role change of the user screen, aimed at the profile of
    another identity, changes nothing and reports no error, whoever the
    caller is. *)
Lemma handleRoleChange_of_other_is_noop (db : Database) (u userId : uuid)
    (newRole : Role) :
  u <> userId ->
  UserManagement.handleRoleChange db (Some u) userId newRole = inr db.
Proof.
  intros Hne. unfold UserManagement.handleRoleChange.
  destruct (role_of db (Some u)) as [[]|]; try reflexivity;
    apply update_profile_of_other_is_noop, Hne.
Qed.

(** C8 at the failing input.  The admin picks a new role for Oya on the
    user screen; nothing is refused and nothing changes: Oya is an operator
    as before. *)
Theorem admin_role_change_has_no_effect :
  role_of demo.db (Some demo.u_admin) = Some admin /\
  role_of demo.db (Some demo.u_op) = Some operator /\
  UserManagement.handleRoleChange demo.db (Some demo.u_admin) demo.u_op team_leader
    = inr demo.db.
Proof. repeat split; reflexivity. Qed.

(** X2. A caller who sets a different role on the own row is refused. *)
Lemma self_role_change_refused (db : Database) (u : uuid) (p : profiles.Row)
    (newRole : Role) :
  In p (profiles db) -> profiles.id p = u ->
  role_of db (Some u) <> Some newRole ->
  update_profile db (Some u) u (fun q => set_role q newRole)
    = inl AuthorizationDenied.
Proof.
  intros Hin Hid Hrole. unfold update_profile; cbv zeta.
  match goal with
  | |- (if negb ?c then _ else _) = _ => assert (Hc : c = false); [|now rewrite Hc]
  end.
  apply not_true_is_false. intros Hall.
  rewrite forallb_forall in Hall.
  specialize (Hall (set_role p newRole)).
  assert (Hmem : In (set_role p newRole)
                    (map (fun q => set_role q newRole)
                       (filter (fun q => policy.profiles_update_using (Some u) q
                                         && String.eqb (profiles.id q) u)
                               (profiles db)))).
  { apply (in_map (fun q => set_role q newRole)).
    apply filter_In. split; [exact Hin|].
    unfold policy.profiles_update_using; simpl. rewrite Hid.
    now rewrite String.eqb_refl. }
  specialize (Hall Hmem). unfold policy.profiles_update_check in Hall.
  apply andb_true_iff in Hall. destruct Hall as [_ Hall].
  destruct (role_of db (Some u)) as [r|]; [|discriminate].
  simpl in Hall. destruct r, newRole; simpl in Hall;
    try discriminate; now contradiction Hrole.
Qed.

(** A caller may rewrite the own full_name: the role stays what it was. *)
Lemma self_rename_accepted :
  update_profile demo.db (Some demo.u_op) demo.u_op
                 (fun q => set_full_name q "Oya K.")
  = inr (with_profiles demo.db
           [demo.profile demo.u_admin "Ada" admin;
            demo.profile demo.u_lead "Tarik" team_leader;
            set_full_name (demo.profile demo.u_op "Oya" operator) "Oya K.";
            demo.profile demo.u_lead2 "Lale" team_leader;
            demo.profile demo.u_op2 "Onur" operator;
            demo.profile demo.u_op3 "Orhan" operator]).
Proof. reflexivity. Qed.

(** ** Deleting a department *)

(** C2, as the code has it.  When an admin deletes an existing department:
    if a machine still points to it the statement fails on the foreign key
    and nothing changes; otherwise the department and every leader row that
    points to it are gone, and the machines table is exactly as before. *)
Theorem department_delete_restricts_on_machines (db : Database)
    (uid : option uuid) (id : uuid) :
  role_of db uid = Some admin ->
  In id (map departments.id (departments db)) ->
  if existsb (fun m => option_eqb (machines.department_id m) id) (machines db)
  then delete_department db uid id = inl ConstraintViolation
  else exists db',
      delete_department db uid id = inr db' /\
      ~ In id (map departments.id (departments db')) /\
      (forall l, In l (department_leaders db') ->
                 department_leaders.department_id l <> id) /\
      machines db' = machines db /\
      (forall m, In m (machines db) -> machines.department_id m <> Some id).
Proof.
  intros Hadm Hex.
  apply has_role_admin in Hadm.
  unfold delete_department, policy.departments_write; cbv zeta.
  rewrite Hadm; simpl.
  assert (Hfound : existsb (fun d => String.eqb (departments.id d) id)
                           (departments db) = true).
  { apply in_map_iff in Hex. destruct Hex as [d [Hd Hin]].
    apply existsb_exists. exists d. split; [exact Hin|].
    rewrite Hd. apply String.eqb_refl. }
  rewrite Hfound.
  destruct (existsb (fun m => option_eqb (machines.department_id m) id) (machines db))
    eqn:Href; [reflexivity|].
  eexists; split; [reflexivity|]. simpl. repeat split.
  - intros Hin. apply in_map_iff in Hin. destruct Hin as [d [Hd Hin]].
    apply filter_In in Hin. destruct Hin as [_ Hin].
    rewrite Hd, String.eqb_refl in Hin. discriminate.
  - intros l Hl Habs. apply filter_In in Hl. destruct Hl as [_ Hl].
    rewrite Habs, String.eqb_refl in Hl. discriminate.
  - intros m Hm Habs.
    assert (existsb (fun m => option_eqb (machines.department_id m) id) (machines db)
            = true); [|congruence].
    apply existsb_exists. exists m. split; [exact Hm|].
    rewrite Habs; simpl. apply String.eqb_refl.
Qed.

Lemma department_delete_restricts_on_machines_witness :
  exists db',
    delete_department demo.db (Some demo.u_admin) demo.d_lab = inr db' /\
    ~ In demo.d_lab (map departments.id (departments db')) /\
    (forall l, In l (department_leaders db') ->
               department_leaders.department_id l <> demo.d_lab) /\
    machines db' = machines demo.db /\
    (forall m, In m (machines demo.db) -> machines.department_id m <> Some demo.d_lab).
Proof.
  apply (department_delete_restricts_on_machines demo.db (Some demo.u_admin)
           demo.d_lab).
  - reflexivity.
  - right; right; left; reflexivity.
Defined.

(** C2, as stated, fails: QC holds M100, the admin's delete of QC is
    refused, QC stays and M100 still points to it. *)
Lemma department_with_machine_not_deleted :
  let after :=
    state_after demo.db
      (DepartmentManagement.handleDeleteDepartment demo.db (Some demo.u_admin)
                                                   demo.d_qc) in
  DepartmentManagement.handleDeleteDepartment demo.db (Some demo.u_admin) demo.d_qc
    = inl ConstraintViolation /\
  In demo.d_qc (map departments.id (departments after)) /\
  In demo.M100 (machines after) /\
  machines.department_id demo.M100 = Some demo.d_qc /\
  length (department_leaders after) = length (department_leaders demo.db).
Proof.
  repeat split; try reflexivity.
  - left; reflexivity.
  - left; reflexivity.
Qed.

(** A caller who is not an admin deletes no department. *)
Lemma department_delete_by_non_admin_is_noop (db : Database) (uid : option uuid)
    (id : uuid) :
  role_of db uid <> Some admin -> delete_department db uid id = inr db.
Proof.
  intros Hna. unfold delete_department, policy.departments_write; cbv zeta.
  assert (Hr : has_role db uid [admin] = false).
  { apply not_true_is_false. intros H. apply Hna, has_role_admin, H. }
  rewrite Hr; simpl.
  assert (Hno : existsb (fun _ : departments.Row => false) (departments db) = false)
    by (induction (departments db); simpl; auto).
  now rewrite Hno.
Qed.

(** ** What a caller without assignments sees *)

Lemma run_nothing {R : Type} (visible : R -> bool) (table : list R)
    (q : Q.Query R) :
  (forall r, In r table -> visible r && Q.q_where q r = false) ->
  Q.run visible table q = [].
Proof.
  intros H. unfold Q.run.
  assert (E : filter (Q.q_where q) (filter visible table) = []).
  { apply filter_none. intros r Hr. apply filter_In in Hr. destruct Hr as [Hr Hv].
    specialize (H r Hr). rewrite Hv in H. exact H. }
  rewrite E. destruct (Q.q_order q), (Q.q_limit q) as [[|k]|]; reflexivity.
Qed.

Lemma no_operator_rows_spec (db : Database) (u : uuid) (a : machine_operators.Row) :
  no_operator_rows db u = true -> In a (machine_operators db) ->
  String.eqb (machine_operators.user_id a) u = false.
Proof.
  unfold no_operator_rows. rewrite forallb_forall. intros H Ha.
  apply negb_true_iff, H, Ha.
Qed.

Lemma no_leader_rows_spec (db : Database) (u : uuid) (l : department_leaders.Row) :
  no_leader_rows db u = true -> In l (department_leaders db) ->
  String.eqb (department_leaders.user_id l) u = false.
Proof.
  unfold no_leader_rows. rewrite forallb_forall. intros H Hl.
  apply negb_true_iff, H, Hl.
Qed.

Lemma existsb_none {R : Type} (p : R -> bool) (l : list R) :
  (forall x, In x l -> p x = false) -> existsb p l = false.
Proof.
  induction l as [|x t IH]; simpl; intros H; [reflexivity|].
  rewrite (H x (or_introl Logic.eq_refl)); simpl. apply IH.
  intros; apply H; now right.
Qed.

Lemma operates_nothing (db : Database) (u m : uuid) :
  no_operator_rows db u = true -> operates_machine db (Some u) m = false.
Proof.
  intros H. apply existsb_none. intros a Ha; simpl.
  rewrite String.eqb_sym, (no_operator_rows_spec db u a H Ha). reflexivity.
Qed.

Lemma leads_nothing (db : Database) (u : uuid) (d : option uuid) :
  no_leader_rows db u = true -> leads_department_of db (Some u) d = false.
Proof.
  intros H. apply existsb_none. intros l Hl; simpl.
  rewrite String.eqb_sym, (no_leader_rows_spec db u l H Hl). reflexivity.
Qed.

(** The history query narrowed to the sentinel id returns nothing. *)
Lemma history_of_sentinel_empty (db : Database) (user : option uuid) :
  sentinel_free db = true ->
  Q.run (policy.status_history_select user) (status_history db)
        (Q.eq (Q.order Q.select_all by_changed_at_desc)
              status_history.machine_id nil_uuid) = [].
Proof.
  intros Hs. apply andb_true_iff in Hs. destruct Hs as [_ Hs].
  rewrite forallb_forall in Hs.
  apply run_nothing. intros h Hh; simpl.
  specialize (Hs h Hh). apply negb_true_iff in Hs. rewrite Hs.
  apply andb_false_r.
Qed.

Lemma loadHistory_of_scoped_nil (db : Database) (user : option uuid) :
  sentinel_free db = true ->
  HistoryPage.scoped db user (Q.order Q.select_all by_changed_at_desc)
  = Q.eq (Q.order Q.select_all by_changed_at_desc) status_history.machine_id nil_uuid ->
  HistoryPage.loadHistory db user = [].
Proof.
  intros Hs Hq. unfold HistoryPage.loadHistory; cbv zeta.
  rewrite Hq, (history_of_sentinel_empty db user Hs). reflexivity.
Qed.

Lemma loadHistory_operator_unassigned (db : Database) (u : uuid) :
  sentinel_free db = true ->
  role_of db (Some u) = Some operator ->
  no_operator_rows db u = true ->
  HistoryPage.loadHistory db (Some u) = [].
Proof.
  intros Hs Hrole Hno. apply loadHistory_of_scoped_nil; [exact Hs|].
  unfold HistoryPage.scoped. rewrite Hrole.
  rewrite run_nothing; [reflexivity|].
  intros a Ha; simpl. rewrite (no_operator_rows_spec db u a Hno Ha). reflexivity.
Qed.

Lemma loadHistory_leader_unassigned (db : Database) (u : uuid) :
  sentinel_free db = true ->
  role_of db (Some u) = Some team_leader ->
  no_leader_rows db u = true ->
  HistoryPage.loadHistory db (Some u) = [].
Proof.
  intros Hs Hrole Hno. apply loadHistory_of_scoped_nil; [exact Hs|].
  unfold HistoryPage.scoped. rewrite Hrole.
  rewrite run_nothing; [reflexivity|].
  intros l Hl; simpl. rewrite (no_leader_rows_spec db u l Hno Hl). reflexivity.
Qed.

Lemma loadData_leader_unassigned (db : Database) (u : uuid) :
  sentinel_free db = true ->
  role_of db (Some u) = Some team_leader ->
  no_leader_rows db u = true ->
  MachineManagement.machines_ (MachineManagement.loadData db (Some u)) = [].
Proof.
  intros Hs Hrole Hno. unfold MachineManagement.loadData; cbv zeta.
  rewrite Hrole; simpl MachineManagement.machines_.
  rewrite (run_nothing (policy.department_leaders_select db (Some u)));
    [|intros l Hl; simpl; rewrite String.eqb_sym,
                            (no_leader_rows_spec db u l Hno Hl); reflexivity].
  simpl. apply run_nothing. intros m Hm; simpl.
  apply andb_true_iff in Hs. destruct Hs as [Hs _].
  rewrite forallb_forall in Hs. specialize (Hs m Hm).
  apply negb_true_iff in Hs. rewrite Hs. apply andb_false_r.
Qed.

Lemma loadData_operator_unassigned (db : Database) (u : uuid) :
  role_of db (Some u) = Some operator ->
  no_operator_rows db u = true ->
  no_leader_rows db u = true ->
  MachineManagement.machines_ (MachineManagement.loadData db (Some u)) = [].
Proof.
  intros Hrole Hop Hld. unfold MachineManagement.loadData; cbv zeta.
  rewrite Hrole; simpl MachineManagement.machines_.
  apply run_nothing. intros m Hm.
  unfold policy.machines_select, has_role. rewrite Hrole; simpl.
  rewrite (leads_nothing db u _ Hld), (operates_nothing db u _ Hop). reflexivity.
Qed.

(** C1, as the code has it.  In a database where nothing is stored under
    the all-zero sentinel id: an operator without machine_operators rows and
    a team leader without department_leaders rows get an empty history, the
    team leader also an empty machine list; the operator's machine list is
    left to the row policy and is empty when the operator holds no
    department_leaders row either. *)
Theorem empty_scope_sees_nothing (db : Database) (u : uuid) :
  sentinel_free db = true ->
  (role_of db (Some u) = Some operator ->
   no_operator_rows db u = true ->
   HistoryPage.loadHistory db (Some u) = [] /\
   (no_leader_rows db u = true ->
    MachineManagement.machines_ (MachineManagement.loadData db (Some u)) = [])) /\
  (role_of db (Some u) = Some team_leader ->
   no_leader_rows db u = true ->
   HistoryPage.loadHistory db (Some u) = [] /\
   MachineManagement.machines_ (MachineManagement.loadData db (Some u)) = []).
Proof.
  intros Hs. split; intros Hrole Hno; split.
  - apply loadHistory_operator_unassigned; assumption.
  - intros Hld. apply loadData_operator_unassigned; assumption.
  - apply loadHistory_leader_unassigned; assumption.
  - apply loadData_leader_unassigned; assumption.
Qed.

Lemma empty_scope_sees_nothing_witness :
  sentinel_free demo.db = true /\
  (HistoryPage.loadHistory demo.db (Some demo.u_op3) = [] /\
   MachineManagement.machines_ (MachineManagement.loadData demo.db (Some demo.u_op3))
   = []) /\
  (HistoryPage.loadHistory demo.db (Some demo.u_lead2) = [] /\
   MachineManagement.machines_ (MachineManagement.loadData demo.db (Some demo.u_lead2))
   = []).
Proof.
  split; [reflexivity|]. split.
  - destruct (empty_scope_sees_nothing demo.db demo.u_op3 Logic.eq_refl)
      as [Hop _].
    destruct (Hop Logic.eq_refl Logic.eq_refl) as [Hh Hm].
    split; [exact Hh | exact (Hm Logic.eq_refl)].
  - destruct (empty_scope_sees_nothing demo.db demo.u_lead2 Logic.eq_refl)
      as [_ Hld].
    exact (Hld Logic.eq_refl Logic.eq_refl).
Defined.

(** C1, as stated, fails: Onur is an operator without machine_operators
    rows; the machine list he is served is not empty, because the row policy
    of machines honours his department_leaders row and the loader adds no
    filter of its own for an operator. *)
Lemma operator_without_machines_sees_machine :
  role_of demo.db (Some demo.u_op2) = Some operator /\
  no_operator_rows demo.db demo.u_op2 = true /\
  MachineManagement.machines_ (MachineManagement.loadData demo.db (Some demo.u_op2))
  = [demo.M100].
Proof. repeat split; reflexivity. Qed.

(** The sentinel is an id like any other: with a machine stored under it,
    the team leader without departments is served that machine's history. *)
Lemma sentinel_row_reaches_empty_scope :
  role_of demo.db_with_nil_id (Some demo.u_lead2) = Some team_leader /\
  no_leader_rows demo.db_with_nil_id demo.u_lead2 = true /\
  map HistoryPage.entry
      (HistoryPage.loadHistory demo.db_with_nil_id (Some demo.u_lead2))
  = [demo.h0].
Proof. repeat split; reflexivity. Qed.

(** * Further properties of the policies, statements and screens *)

(** ** Roles are fixed once a profile exists *)

Lemma state_after_inr (db db' : Database) : state_after db (inr db') = db'.
Proof. reflexivity. Qed.

Lemma role_of_profiles (db db' : Database) (uid : option uuid) :
  profiles db' = profiles db -> role_of db' uid = role_of db uid.
Proof. unfold role_of. now intros ->. Qed.

Lemma find_app_found {R : Type} (p : R -> bool) (l l' : list R) (x : R) :
  find p l = Some x -> find p (l ++ l') = Some x.
Proof.
  induction l as [|a t IH]; simpl; [discriminate|].
  destruct (p a); [trivial | exact IH].
Qed.

Lemma find_after_patch (u v : uuid) (R : option Role)
    (hit : profiles.Row -> bool) (patch : profiles.Row -> profiles.Row)
    (l : list profiles.Row) :
  (forall p, In p l -> hit p = true ->
             profiles.id p = u /\ profiles.id (patch p) = u
             /\ Some (profiles.role (patch p)) = R) ->
  (forall p0, v = u ->
              find (fun p => String.eqb v (profiles.id p)) l = Some p0 ->
              R = Some (profiles.role p0)) ->
  option_map profiles.role
    (find (fun p => String.eqb v (profiles.id p))
          (map (fun p => if hit p then patch p else p) l))
  = option_map profiles.role (find (fun p => String.eqb v (profiles.id p)) l).
Proof.
  induction l as [|a t IH]; intros Hhit Hfirst; [reflexivity|].
  simpl. destruct (hit a) eqn:Ha.
  - destruct (Hhit a (or_introl Logic.eq_refl) Ha) as [Hid [Hid' Hrole]].
    rewrite Hid, Hid'. destruct (String.eqb v u) eqn:Evu.
    + simpl. apply String.eqb_eq in Evu.
      specialize (Hfirst a Evu). simpl in Hfirst.
      rewrite Hid, (proj2 (String.eqb_eq v u) Evu) in Hfirst.
      specialize (Hfirst Logic.eq_refl). congruence.
    + apply IH.
      * intros p Hp. apply Hhit. now right.
      * intros p0 Hv. subst v. rewrite String.eqb_refl in Evu. discriminate.
  - destruct (String.eqb v (profiles.id a)) eqn:Eva; [reflexivity|].
    apply IH.
    + intros p Hp. apply Hhit. now right.
    + intros p0 Hv Hf. apply Hfirst; [exact Hv|]. simpl. now rewrite Eva.
Qed.

(** A profile UPDATE that passes its WITH CHECK leaves every role as it was:
    the rows it may touch are the caller's own, and the new row must carry
    the role the caller had. *)
Lemma update_profile_keeps_roles (db : Database) (uid : option uuid) (id : uuid)
    (patch : profiles.Row -> profiles.Row) (v : uuid) :
  role_of (state_after db (update_profile db uid id patch)) (Some v)
  = role_of db (Some v).
Proof.
  unfold update_profile; cbv zeta.
  set (hit := fun p : profiles.Row =>
                policy.profiles_update_using uid p && String.eqb (profiles.id p) id).
  destruct (forallb (policy.profiles_update_check db uid)
                    (map patch (filter hit (profiles db)))) eqn:Hall;
    simpl; [|reflexivity].
  rewrite forallb_forall in Hall.
  assert (Hchk : forall p, In p (profiles db) -> hit p = true ->
                           policy.profiles_update_check db uid (patch p) = true).
  { intros p Hp Hh. apply Hall, in_map, filter_In. now split. }
  clear Hall.
  destruct uid as [u|].
  2:{ unfold role_of; simpl.
      rewrite (map_unchanged hit patch); [reflexivity|]. intros; reflexivity. }
  unfold role_of; simpl.
  apply (find_after_patch u v (role_of db (Some u))).
  - intros p Hp Hh. specialize (Hchk p Hp Hh).
    unfold policy.profiles_update_check in Hchk.
    apply andb_true_iff in Hchk. destruct Hchk as [Hid Hrole].
    unfold hit, policy.profiles_update_using in Hh.
    apply andb_true_iff in Hh. destruct Hh as [Hown _].
    simpl in Hid, Hown. apply String.eqb_eq in Hid, Hown.
    repeat split; try congruence.
    destruct (role_of db (Some u)) as [r|]; [|discriminate].
    destruct (profiles.role (patch p)), r; simpl in Hrole;
      try discriminate; reflexivity.
  - intros p0 -> Hf. unfold role_of; simpl. now rewrite Hf.
Qed.

Lemma insert_profile_keeps_roles (db : Database) (uid : option uuid)
    (p : profiles.Row) (v : uuid) (r : Role) :
  role_of db (Some v) = Some r ->
  role_of (state_after db (insert_profile db uid p)) (Some v) = Some r.
Proof.
  intros H. unfold insert_profile.
  destruct (negb (policy.profiles_insert_check uid p)); [exact H|].
  destruct (mem (profiles.id p) (map profiles.id (profiles db))); [exact H|].
  unfold role_of in *; simpl in *.
  destruct (find (fun q => String.eqb v (profiles.id q)) (profiles db)) as [q|] eqn:E;
    [|discriminate H].
  now rewrite (find_app_found _ _ _ _ E).
Qed.

Ltac unfold_statement :=
  match goal with
  | |- context [state_after _ (?f _ _ _)] => unfold f
  | |- context [state_after _ (?f _ _ _ _)] => unfold f
  | |- context [state_after _ (?f _ _ _ _ _)] => unfold f
  end; cbv zeta;
  repeat match goal with
         | |- context [if ?c then _ else _] => destruct c eqn:?
         end.

(** X1. No statement, by any caller, changes the role of a profile that
    exists: an INSERT adds a row under a new id, an UPDATE reaches the
    caller's own row only and must keep its role. *)
Theorem role_kept_by_every_statement (db : Database) (uid : option uuid)
    (s : Statement) (v : uuid) (r : Role) :
  role_of db (Some v) = Some r ->
  role_of (state_after db (exec db uid s)) (Some v) = Some r.
Proof.
  intros H. destruct s; cbn [exec];
    try solve [unfold_statement; exact H].
  - apply insert_profile_keeps_roles, H.
  - rewrite update_profile_keeps_roles. exact H.
Qed.

Lemma role_kept_by_every_statement_witness :
  role_of demo.db (Some demo.u_op) = Some operator /\
  role_of (state_after demo.db
             (exec demo.db (Some demo.u_op)
                   (UpdateProfile demo.u_op (fun p => set_role p admin))))
          (Some demo.u_op) = Some operator.
Proof.
  split; [reflexivity|].
  apply (role_kept_by_every_statement demo.db (Some demo.u_op)
           (UpdateProfile demo.u_op (fun p => set_role p admin)) demo.u_op operator).
  reflexivity.
Defined.

Lemma self_role_change_refused_witness :
  In (demo.profile demo.u_op "Oya" operator) (profiles demo.db) /\
  role_of demo.db (Some demo.u_op) <> Some admin /\
  update_profile demo.db (Some demo.u_op) demo.u_op (fun q => set_role q admin)
  = inl AuthorizationDenied.
Proof.
  assert (Hin : In (demo.profile demo.u_op "Oya" operator) (profiles demo.db))
    by (right; right; left; reflexivity).
  assert (Hr : role_of demo.db (Some demo.u_op) <> Some admin) by discriminate.
  split; [exact Hin|]. split; [exact Hr|].
  exact (self_role_change_refused demo.db demo.u_op _ admin Hin Logic.eq_refl Hr).
Defined.

Lemma handleRoleChange_of_other_is_noop_witness :
  demo.u_lead <> demo.u_op /\
  UserManagement.handleRoleChange demo.db (Some demo.u_lead) demo.u_op admin
  = inr demo.db.
Proof.
  assert (Hne : demo.u_lead <> demo.u_op) by discriminate.
  split; [exact Hne|].
  exact (handleRoleChange_of_other_is_noop demo.db demo.u_lead demo.u_op admin Hne).
Defined.

(** ** Registering a profile *)

Lemma role_of_none_fresh (db : Database) (u : uuid) :
  role_of db (Some u) = None -> mem u (map profiles.id (profiles db)) = false.
Proof.
  unfold role_of, mem; simpl. induction (profiles db) as [|a t IH]; simpl;
    [reflexivity|].
  destruct (String.eqb u (profiles.id a)); simpl; [discriminate | exact IH].
Qed.

Lemma find_app_fresh {R : Type} (p : R -> bool) (l : list R) (x : R) :
  find p l = None -> p x = true -> find p (l ++ [x]) = Some x.
Proof.
  induction l as [|a t IH]; simpl; intros Hn Hx; [now rewrite Hx|].
  destruct (p a); [discriminate | now apply IH].
Qed.

(** X4. A signed-in caller without a profile may insert a profile for its
    own id only, and with whatever role the row names, admin included: that
    role is the caller's from then on. *)
Theorem own_profile_with_any_role (db : Database) (u : uuid) (p : profiles.Row) :
  role_of db (Some u) = None ->
  if String.eqb u (profiles.id p)
  then insert_profile db (Some u) p = inr (with_profiles db (profiles db ++ [p])) /\
       role_of (with_profiles db (profiles db ++ [p])) (Some u)
       = Some (profiles.role p)
  else insert_profile db (Some u) p = inl AuthorizationDenied.
Proof.
  intros Hnone. unfold insert_profile, policy.profiles_insert_check; simpl.
  destruct (String.eqb u (profiles.id p)) eqn:E; simpl; [|reflexivity].
  apply String.eqb_eq in E. subst u.
  rewrite (role_of_none_fresh db _ Hnone). split; [reflexivity|].
  unfold role_of in *; simpl in *.
  destruct (find (fun q => String.eqb (profiles.id p) (profiles.id q)) (profiles db))
    eqn:F; [discriminate Hnone|].
  rewrite (find_app_fresh _ _ p F) by apply String.eqb_refl. reflexivity.
Qed.

Lemma own_profile_with_any_role_witness :
  role_of demo.db (Some "0a000000-0000-4000-8000-000000000007") = None /\
  role_of (state_after demo.db
             (insert_profile demo.db (Some "0a000000-0000-4000-8000-000000000007")
                (demo.profile "0a000000-0000-4000-8000-000000000007" "Nur" admin)))
          (Some "0a000000-0000-4000-8000-000000000007") = Some admin.
Proof.
  split; [reflexivity|].
  destruct (own_profile_with_any_role demo.db "0a000000-0000-4000-8000-000000000007"
              (demo.profile "0a000000-0000-4000-8000-000000000007" "Nur" admin)
              Logic.eq_refl) as [Hins Hrole].
  exact (eq_trans
           (f_equal (fun r => role_of (state_after demo.db r)
                                      (Some "0a000000-0000-4000-8000-000000000007"))
                    Hins)
           Hrole).
Defined.

(** ** Lists served to a caller *)

Lemma run_In {R : Type} (visible : R -> bool) (table : list R) (q : Q.Query R)
    (x : R) :
  Q.q_limit q = None ->
  (In x (Q.run visible table q) <->
   In x table /\ visible x = true /\ Q.q_where q x = true).
Proof.
  intros Hl. unfold Q.run. rewrite Hl; simpl.
  assert (Hord : forall l, In x (Q.apply_order (Q.q_order q) l) <-> In x l).
  { intros l. destruct (Q.q_order q) as [leb|]; simpl; [|tauto].
    split; apply Permutation_in;
      [apply sort_rows_perm | apply Permutation_sym, sort_rows_perm]. }
  rewrite Hord, !filter_In. tauto.
Qed.

(** X5. The user screen of a team leader lists exactly the profiles whose
    role is operator; any other signed-in caller is listed every profile, and
    a caller who is not signed in none. *)
Theorem loadUsers_by_role (db : Database) (user : option uuid) (p : profiles.Row) :
  In p (UserManagement.loadUsers db user) <->
  In p (profiles db) /\
  match user, role_of db user with
  | None, _ => False
  | Some _, Some team_leader => profiles.role p = operator
  | Some _, _ => True
  end.
Proof.
  unfold UserManagement.loadUsers; cbv zeta.
  destruct user as [u|].
  - destruct (role_of db (Some u)) as [[]|]; rewrite run_In by reflexivity; simpl;
      try tauto.
    destruct (profiles.role p); simpl; intuition discriminate.
  - rewrite role_of_anon, run_In by reflexivity; simpl. intuition discriminate.
Qed.

(** X6. The machine board serves an anonymous visitor every machine, and a
    signed-in caller the machines it administers, leads the department of or
    operates: whatever a signed-in caller is served, the visitor is served
    as well. *)
Theorem loadMachines_by_scope (db : Database) (m : machines.Row) :
  (In m (MachineOverview.loadMachines db None) <-> In m (machines db)) /\
  (forall u,
      In m (MachineOverview.loadMachines db (Some u)) <->
      In m (machines db) /\
      (role_of db (Some u) = Some admin
       \/ leads_department_of db (Some u) (machines.department_id m) = true
       \/ operates_machine db (Some u) (machines.id m) = true)) /\
  (forall u,
      In m (MachineOverview.loadMachines db (Some u)) ->
      In m (MachineOverview.loadMachines db None)).
Proof.
  assert (Hanon : In m (MachineOverview.loadMachines db None) <-> In m (machines db)).
  { unfold MachineOverview.loadMachines. rewrite run_In by reflexivity.
    unfold policy.machines_select, authenticated, anon.
    rewrite andb_false_l, orb_false_l. simpl. tauto. }
  assert (Hauth : forall u,
             In m (MachineOverview.loadMachines db (Some u)) <->
             In m (machines db) /\
             (role_of db (Some u) = Some admin
              \/ leads_department_of db (Some u) (machines.department_id m) = true
              \/ operates_machine db (Some u) (machines.id m) = true)).
  { intros u. unfold MachineOverview.loadMachines. rewrite run_In by reflexivity.
    unfold policy.machines_select, authenticated, anon.
    rewrite andb_true_l, orb_false_r, !orb_true_iff, has_role_admin.
    simpl. tauto. }
  split; [exact Hanon|]. split; [exact Hauth|].
  intros u H. apply Hanon. apply Hauth in H. tauto.
Qed.

(** ** The history page, by role *)

Lemma HistoryPage_entries (db : Database) (user : option uuid) :
  map HistoryPage.entry (HistoryPage.loadHistory db user) =
  Q.run (policy.status_history_select user) (status_history db)
        (HistoryPage.scoped db user (Q.order Q.select_all by_changed_at_desc)).
Proof.
  unfold HistoryPage.loadHistory; cbv zeta. rewrite map_map; simpl. apply map_id.
Qed.

Lemma operator_assignments_In (db : Database) (u : uuid) (a : machine_operators.Row) :
  In a (Q.run (policy.machine_operators_select db (Some u)) (machine_operators db)
              (Q.eq Q.select_all machine_operators.user_id u)) <->
  In a (machine_operators db) /\ machine_operators.user_id a = u.
Proof.
  rewrite run_In by reflexivity. simpl. rewrite String.eqb_eq. tauto.
Qed.

Lemma leader_assignments_In (db : Database) (u : uuid) (l : department_leaders.Row) :
  In l (Q.run (policy.department_leaders_select db (Some u)) (department_leaders db)
              (Q.eq Q.select_all department_leaders.user_id u)) <->
  In l (department_leaders db) /\ department_leaders.user_id l = u.
Proof.
  rewrite run_In by reflexivity. simpl. rewrite String.eqb_eq. tauto.
Qed.

Lemma positive_length {R : Type} (l : list R) (x : R) :
  In x l -> (0 <? length l)%nat = true.
Proof. destruct l; [contradiction | reflexivity]. Qed.

Lemma operates_machine_iff (db : Database) (u m : uuid) :
  operates_machine db (Some u) m = true <->
  exists a, In a (machine_operators db)
            /\ machine_operators.user_id a = u /\ machine_operators.machine_id a = m.
Proof.
  unfold operates_machine. rewrite existsb_exists.
  split; intros [a [Ha H]]; exists a; split; try exact Ha.
  - simpl in H. apply andb_true_iff in H. destruct H as [H1 H2].
    apply String.eqb_eq in H1, H2. now split.
  - destruct H as [-> ->]. simpl. now rewrite !String.eqb_refl.
Qed.

Lemma leads_department_of_iff (db : Database) (u : uuid) (d : option uuid) :
  leads_department_of db (Some u) d = true <->
  exists l, In l (department_leaders db)
            /\ department_leaders.user_id l = u
            /\ d = Some (department_leaders.department_id l).
Proof.
  unfold leads_department_of. rewrite existsb_exists.
  split; intros [l [Hl H]]; exists l; split; try exact Hl.
  - simpl in H. apply andb_true_iff in H. destruct H as [H1 H2].
    apply String.eqb_eq in H1. destruct d as [x|]; [|discriminate].
    simpl in H2. apply String.eqb_eq in H2. subst. now split.
  - destruct H as [-> ->]. simpl. now rewrite !String.eqb_refl.
Qed.

(** X7. The history page of an operator holds exactly the history rows of
    the machines the operator is assigned to; with no assignment at all it
    holds the rows filed under the all-zero id, if any. *)
Theorem operator_history_scope (db : Database) (u : uuid) (h : status_history.Row) :
  role_of db (Some u) = Some operator ->
  (In h (map HistoryPage.entry (HistoryPage.loadHistory db (Some u))) <->
   In h (status_history db) /\
   if no_operator_rows db u
   then status_history.machine_id h = nil_uuid
   else operates_machine db (Some u) (status_history.machine_id h) = true).
Proof.
  intros Hrole. rewrite HistoryPage_entries.
  unfold HistoryPage.scoped. rewrite Hrole.
  set (assignments := Q.run _ (machine_operators db) _).
  destruct (no_operator_rows db u) eqn:Hno.
  - assert (E : assignments = []).
    { apply run_nothing. intros a Ha; simpl.
      rewrite (no_operator_rows_spec db u a Hno Ha). reflexivity. }
    rewrite E; simpl length. cbn [Nat.ltb Nat.leb].
    rewrite run_In by reflexivity. simpl.
    rewrite status_history_select_all, String.eqb_eq. tauto.
  - assert (Hex : exists a, In a assignments).
    { unfold no_operator_rows in Hno.
      apply not_true_iff_false in Hno. rewrite forallb_forall in Hno.
      destruct (existsb (fun a => String.eqb (machine_operators.user_id a) u)
                        (machine_operators db)) eqn:E.
      - apply existsb_exists in E. destruct E as [a [Ha Hu]].
        exists a. apply operator_assignments_In. split; [exact Ha|].
        now apply String.eqb_eq.
      - exfalso. apply Hno. intros a Ha. apply negb_true_iff.
        destruct (String.eqb (machine_operators.user_id a) u) eqn:Eu; [|reflexivity].
        rewrite <- E. symmetry. apply existsb_exists. now exists a. }
    destruct Hex as [a0 Ha0].
    rewrite (positive_length _ (machine_operators.machine_id a0))
      by (apply in_map, Ha0).
    rewrite run_In by reflexivity. simpl.
    rewrite status_history_select_all.
    assert (Hiff : existsb (String.eqb (status_history.machine_id h))
                           (map machine_operators.machine_id assignments) = true
                   <-> operates_machine db (Some u) (status_history.machine_id h) = true).
    { rewrite operates_machine_iff, existsb_exists. split.
      - intros [x [Hx Heq]]. apply String.eqb_eq in Heq. subst x.
        apply in_map_iff in Hx. destruct Hx as [a [Hm Ha]].
        apply operator_assignments_In in Ha. exists a. tauto.
      - intros [a [Ha [Hu Hm]]]. exists (machine_operators.machine_id a). split.
        + apply in_map. apply operator_assignments_In. now split.
        + rewrite Hm. apply String.eqb_refl. }
    rewrite <- Hiff. tauto.
Qed.

Lemma operator_history_scope_witness :
  role_of demo.db (Some demo.u_op) = Some operator /\
  (In demo.h1 (map HistoryPage.entry (HistoryPage.loadHistory demo.db (Some demo.u_op)))
   <-> In demo.h1 (status_history demo.db) /\
       operates_machine demo.db (Some demo.u_op) (status_history.machine_id demo.h1)
       = true).
Proof.
  split; [reflexivity|].
  exact (operator_history_scope demo.db demo.u_op demo.h1 Logic.eq_refl).
Defined.

Lemma led_machines_In (db : Database) (u : uuid) (m : machines.Row) :
  In m (Q.run (policy.machines_select db (Some u)) (machines db)
          (Q.in_nullable Q.select_all machines.department_id
             (map department_leaders.department_id
                (Q.run (policy.department_leaders_select db (Some u))
                       (department_leaders db)
                       (Q.eq Q.select_all department_leaders.user_id u))))) <->
  In m (machines db)
  /\ leads_department_of db (Some u) (machines.department_id m) = true.
Proof.
  rewrite run_In by reflexivity. simpl Q.q_where.
  assert (Hin : existsb (option_eqb (machines.department_id m))
                  (map department_leaders.department_id
                     (Q.run (policy.department_leaders_select db (Some u))
                            (department_leaders db)
                            (Q.eq Q.select_all department_leaders.user_id u))) = true
                <-> leads_department_of db (Some u) (machines.department_id m) = true).
  { rewrite leads_department_of_iff, existsb_exists. split.
    - intros [x [Hx Heq]]. apply in_map_iff in Hx. destruct Hx as [l [Hd Hl]].
      apply leader_assignments_In in Hl. exists l.
      destruct (machines.department_id m) as [d|]; [|discriminate].
      simpl in Heq. apply String.eqb_eq in Heq. subst. tauto.
    - intros [l [Hl [Hu Hd]]]. exists (department_leaders.department_id l). split.
      + apply in_map. apply leader_assignments_In. now split.
      + rewrite Hd. simpl. apply String.eqb_refl. }
  unfold policy.machines_select, authenticated, anon.
  rewrite andb_true_l, orb_false_r. simpl andb. rewrite Hin.
  split; [tauto|]. intros [Hm Hl]. repeat split; try assumption.
  rewrite Hl. now rewrite orb_true_r.
Qed.

(** X8. The history page of a team leader holds exactly the history rows of
    the machines whose department the caller leads; when the caller leads no
    machine it holds the rows filed under the all-zero id, if any. *)
Theorem leader_history_scope (db : Database) (u : uuid) (h : status_history.Row) :
  role_of db (Some u) = Some team_leader ->
  (In h (map HistoryPage.entry (HistoryPage.loadHistory db (Some u))) <->
   In h (status_history db) /\
   if existsb (fun m => leads_department_of db (Some u) (machines.department_id m))
              (machines db)
   then exists m, In m (machines db)
                  /\ machines.id m = status_history.machine_id h
                  /\ leads_department_of db (Some u) (machines.department_id m) = true
   else status_history.machine_id h = nil_uuid).
Proof.
  intros Hrole. rewrite HistoryPage_entries.
  unfold HistoryPage.scoped. rewrite Hrole.
  set (myDepts := Q.run _ (department_leaders db) _).
  set (deptMachines := Q.run _ (machines db) _).
  assert (Hdm : forall m, In m deptMachines <->
                In m (machines db)
                /\ leads_department_of db (Some u) (machines.department_id m) = true)
    by (intros m; apply led_machines_In).
  assert (Hnil : forall q,
             q = Q.eq (Q.order Q.select_all by_changed_at_desc)
                      status_history.machine_id nil_uuid ->
             (In h (Q.run (policy.status_history_select (Some u))
                          (status_history db) q) <->
              In h (status_history db) /\ status_history.machine_id h = nil_uuid)).
  { intros q ->. rewrite run_In by reflexivity. simpl.
    rewrite String.eqb_eq. tauto. }
  destruct (existsb _ (machines db)) eqn:Eled.
  - apply existsb_exists in Eled. destruct Eled as [m0 [Hm0 Hl0]].
    assert (Hd0 : In m0 deptMachines) by (apply Hdm; now split).
    apply leads_department_of_iff in Hl0. destruct Hl0 as [l0 [Hl0 [Hu0 _]]].
    rewrite (positive_length _ (department_leaders.department_id l0))
      by (apply in_map, leader_assignments_In; now split).
    rewrite (positive_length _ (machines.id m0)) by (apply in_map, Hd0).
    rewrite run_In by reflexivity. simpl.
    rewrite existsb_exists. split.
    + intros [Hh [_ [x [Hx Heq]]]]. split; [exact Hh|].
      apply String.eqb_eq in Heq. subst x.
      apply in_map_iff in Hx. destruct Hx as [m [Hid Hm]].
      apply Hdm in Hm. exists m. tauto.
    + intros [Hh [m [Hm [Hid Hl]]]]. repeat split; try exact Hh.
      exists (machines.id m). split.
      * apply in_map, Hdm. now split.
      * rewrite Hid. apply String.eqb_refl.
  - assert (E : deptMachines = []).
    { destruct deptMachines as [|m t] eqn:Ed; [reflexivity|]. exfalso.
      assert (Hm : In m (m :: t)) by now left.
      apply Hdm in Hm. destruct Hm as [Hm Hl].
      assert (existsb (fun m => leads_department_of db (Some u)
                                  (machines.department_id m)) (machines db) = true)
        by (apply existsb_exists; now exists m).
      congruence. }
    rewrite E.
    destruct (0 <? length (map department_leaders.department_id myDepts))%nat;
      apply Hnil; reflexivity.
Qed.

Lemma leader_history_scope_witness :
  role_of demo.db (Some demo.u_lead) = Some team_leader /\
  map HistoryPage.entry (HistoryPage.loadHistory demo.db (Some demo.u_lead))
  = [demo.h1] /\
  (In demo.h1
      (map HistoryPage.entry (HistoryPage.loadHistory demo.db (Some demo.u_lead)))
   <-> In demo.h1 (status_history demo.db) /\
       exists m, In m (machines demo.db)
                 /\ machines.id m = status_history.machine_id demo.h1
                 /\ leads_department_of demo.db (Some demo.u_lead)
                                        (machines.department_id m) = true).
Proof.
  split; [reflexivity|]. split; [reflexivity|].
  exact (leader_history_scope demo.db demo.u_lead demo.h1 Logic.eq_refl).
Defined.

(** X9. A caller who is neither an operator nor a team leader (an admin, a
    visitor who is not signed in, a signed-in account without a profile) is
    served the whole history table, newest first. *)
Theorem unscoped_history_is_everything (db : Database) (user : option uuid) :
  role_of db user <> Some operator ->
  role_of db user <> Some team_leader ->
  let served := map HistoryPage.entry (HistoryPage.loadHistory db user) in
  Permutation served (status_history db) /\
  StronglySorted
    (fun a b => (status_history.changed_at b <= status_history.changed_at a)%Z)
    served.
Proof.
  intros Hop Hld served. subst served. rewrite HistoryPage_entries.
  assert (E : HistoryPage.scoped db user (Q.order Q.select_all by_changed_at_desc)
              = Q.order Q.select_all by_changed_at_desc).
  { unfold HistoryPage.scoped.
    destruct user as [u|]; [|reflexivity].
    destruct (role_of db (Some u)) as [[]|]; try reflexivity;
      [now contradiction Hld | now contradiction Hop]. }
  rewrite E. unfold Q.run; simpl.
  rewrite (filter_all (policy.status_history_select user))
    by (intros; apply status_history_select_all).
  rewrite (filter_all (fun _ => true)) by reflexivity.
  split; [apply sort_rows_perm|].
  eapply StronglySorted_weaken.
  - intros a b H; apply by_changed_at_desc_spec; exact H.
  - apply sort_rows_sorted;
      [apply by_changed_at_desc_total | apply by_changed_at_desc_trans].
Qed.

Lemma unscoped_history_is_everything_witness :
  role_of demo.db (Some "0a000000-0000-4000-8000-000000000007") <> Some operator /\
  role_of demo.db (Some "0a000000-0000-4000-8000-000000000007") <> Some team_leader /\
  Permutation
    (map HistoryPage.entry
         (HistoryPage.loadHistory demo.db (Some "0a000000-0000-4000-8000-000000000007")))
    (status_history demo.db).
Proof.
  assert (H1 : role_of demo.db (Some "0a000000-0000-4000-8000-000000000007")
               <> Some operator) by discriminate.
  assert (H2 : role_of demo.db (Some "0a000000-0000-4000-8000-000000000007")
               <> Some team_leader) by discriminate.
  split; [exact H1|]. split; [exact H2|].
  exact (proj1 (unscoped_history_is_everything demo.db
                  (Some "0a000000-0000-4000-8000-000000000007") H1 H2)).
Defined.

(** X10. A visitor who is not signed in cannot read profiles, so both
    history views name the fallback user on every entry they serve. *)
Theorem anonymous_history_names_nobody (db : Database) (machineId : uuid) :
  Forall (fun e => StatusHistory.user_name e = "Unknown User")
         (StatusHistory.loadHistory db None machineId) /\
  Forall (fun e => HistoryPage.user_name e = "Bilinmeyen Kullanıcı")
         (HistoryPage.loadHistory db None).
Proof.
  assert (Hp : forall q, Q.run (policy.profiles_select None) (profiles db) q = []).
  { intros q. apply run_nothing. intros; reflexivity. }
  split; apply Forall_forall; intros e He.
  - unfold StatusHistory.loadHistory in He; cbv zeta in He.
    rewrite Hp in He. apply in_map_iff in He. destruct He as [h [<- _]].
    reflexivity.
  - unfold HistoryPage.loadHistory in He; cbv zeta in He.
    rewrite Hp in He. apply in_map_iff in He. destruct He as [h [<- _]].
    reflexivity.
Qed.

(** ** Status colours *)

Lemma find_nothing {R : Type} (p : R -> bool) (l : list R) :
  (forall x, In x l -> p x = false) -> find p l = None.
Proof.
  induction l as [|a t IH]; simpl; intros H; [reflexivity|].
  rewrite (H a (or_introl Logic.eq_refl)). apply IH. intros; apply H; now right.
Qed.

(** X11. A status whose name belongs to no active status type is drawn in
    gray by the history views, for every caller: the views load active types
    only, so deactivating a type turns its past entries gray. *)
Theorem inactive_status_is_gray (db : Database) (user : option uuid)
    (status : string) :
  (forall s, In s (status_types db) -> status_types.name s = status ->
             status_types.is_active s = false) ->
  getStatusColor (loadStatusTypes db user) status = JsString gray_classes.
Proof.
  intros H. unfold getStatusColor.
  rewrite find_nothing; [reflexivity|].
  intros s Hs. unfold loadStatusTypes in Hs.
  apply run_In in Hs; [|reflexivity]. destruct Hs as [Hin [_ Hact]].
  simpl in Hact.
  destruct (String.eqb (status_types.name s) status) eqn:E; [|reflexivity].
  apply String.eqb_eq in E. rewrite (H s Hin E) in Hact. discriminate.
Qed.

Lemma inactive_status_is_gray_witness :
  let db := state_after demo.db
              (StatusTypeManagement.handleToggleActive demo.db (Some demo.u_admin)
                                                       demo.Running) in
  getStatusColor (loadStatusTypes demo.db (Some demo.u_op)) "Running"
  = JsString "bg-green-100 text-green-800 border-green-200" /\
  getStatusColor (loadStatusTypes db (Some demo.u_op)) "Running"
  = JsString gray_classes.
Proof.
  split; [reflexivity|].
  apply (inactive_status_is_gray
           (state_after demo.db
              (StatusTypeManagement.handleToggleActive demo.db (Some demo.u_admin)
                                                       demo.Running))).
  intros s [<-|[<-|[]]] Hn; [reflexivity | discriminate Hn].
Defined.

(** X12. Unless a loaded status type has a colour spelled like a member of
    Object.prototype, getStatusColor answers with one of the eight class
    strings of its colour table, whatever the status and the colours are. *)
Theorem getStatusColor_in_table (statusTypes : list status_types.Row)
    (status : string) :
  (forall st, In st statusTypes ->
              mem (status_types.color st) Object_prototype_keys = false) ->
  exists classes,
    getStatusColor statusTypes status = JsString classes /\
    In classes (map snd colorMap).
Proof.
  intros H. unfold getStatusColor.
  destruct (find _ statusTypes) as [st|] eqn:F.
  - apply find_some in F. destruct F as [Hin _].
    unfold colorMap_own.
    destruct (find _ colorMap) as [kv|] eqn:C; cbn [option_map].
    + exists (snd kv). split; [reflexivity|].
      apply find_some in C. apply (in_map snd), C.
    + rewrite (H st Hin). exists gray_classes. split; [reflexivity|].
      unfold colorMap, gray_classes; simpl; tauto.
  - exists gray_classes. split; [reflexivity|].
    unfold colorMap, gray_classes; simpl; tauto.
Qed.

Lemma getStatusColor_in_table_witness :
  exists classes,
    getStatusColor (status_types demo.db) "Calibration" = JsString classes /\
    In classes (map snd colorMap).
Proof.
  apply (getStatusColor_in_table (status_types demo.db) "Calibration").
  intros st [<-|[<-|[]]]; reflexivity.
Defined.

(** ** Adding and removing through the forms *)

Lemma with_status_types_same (db : Database) :
  with_status_types db (status_types db) = db.
Proof. destruct db; reflexivity. Qed.

Lemma filter_drop_last {R : Type} (p : R -> bool) (l : list R) (x : R) :
  (forall y, In y l -> p y = true) -> p x = false -> filter p (l ++ [x]) = l.
Proof.
  intros Hl Hx. rewrite filter_app; simpl. rewrite Hx, app_nil_r.
  apply filter_all, Hl.
Qed.

Lemma mem_false_neq (x : uuid) (l : list uuid) (y : uuid) :
  mem x l = false -> In y l -> String.eqb y x = false.
Proof.
  unfold mem. intros H Hy.
  destruct (String.eqb y x) eqn:E; [|reflexivity].
  apply String.eqb_eq in E. subst y.
  rewrite <- H. symmetry. apply existsb_exists. exists x.
  split; [exact Hy | apply String.eqb_refl].
Qed.

(** X13. A status type added through the form is not a default, so the
    caller who added it can delete it again, and the catalog is then exactly
    what it was before. *)
Theorem status_type_add_then_delete (db : Database) (user : option uuid)
    (formData : StatusTypeManagementForm.FormData)
    (statusTypes : list status_types.Row) (fresh : uuid) (db' : Database) :
  StatusTypeManagementForm.handleSubmit db user None formData statusTypes fresh
    = inr db' ->
  StatusTypeManagement.handleDelete db' user
    (StatusTypeManagementForm.new_row user formData statusTypes fresh) = inr db.
Proof.
  unfold StatusTypeManagementForm.handleSubmit, insert_status_type.
  set (row := StatusTypeManagementForm.new_row user formData statusTypes fresh).
  destruct (policy.status_types_write db user row) eqn:Hadm; cbn [negb];
    [|discriminate].
  destruct (mem (status_types.id row) (map status_types.id (status_types db)))
    eqn:Hfresh; cbn [orb]; [discriminate|].
  match goal with
  | |- (if ?c then _ else _) = _ -> _ => destruct c; [discriminate|]
  end.
  intros H; injection H as <-.
  unfold StatusTypeManagement.handleDelete. simpl status_types.is_default.
  cbv iota. unfold delete_status_type. f_equal.
  simpl status_types.
  rewrite filter_drop_last.
  - destruct db; reflexivity.
  - intros s Hs. apply negb_true_iff, andb_false_iff. right.
    apply (mem_false_neq _ _ _ Hfresh), in_map, Hs.
  - apply negb_false_iff. unfold policy.status_types_delete_using.
    unfold policy.status_types_write in Hadm.
    assert (Hr : has_role (with_status_types db (status_types db ++ [row])) user
                          [admin] = has_role db user [admin]) by reflexivity.
    rewrite Hr, Hadm. simpl. apply String.eqb_refl.
Qed.

Lemma status_type_add_then_delete_witness :
  let form := {| StatusTypeManagementForm.name := "Cleaning";
                 StatusTypeManagementForm.color := "orange" |} in
  let loaded := StatusTypeManagementForm.loadStatusTypes demo.db (Some demo.u_admin) in
  let row := StatusTypeManagementForm.new_row (Some demo.u_admin) form loaded
               "05000000-0000-4000-8000-000000000006" in
  StatusTypeManagementForm.handleSubmit demo.db (Some demo.u_admin) None form loaded
    "05000000-0000-4000-8000-000000000006"
  = inr (with_status_types demo.db [demo.Running; demo.Calibration; row]) /\
  StatusTypeManagement.handleDelete
    (with_status_types demo.db [demo.Running; demo.Calibration; row])
    (Some demo.u_admin) row = inr demo.db.
Proof.
  split; [reflexivity|].
  apply (status_type_add_then_delete demo.db (Some demo.u_admin)
           {| StatusTypeManagementForm.name := "Cleaning";
              StatusTypeManagementForm.color := "orange" |}
           (StatusTypeManagementForm.loadStatusTypes demo.db (Some demo.u_admin))
           "05000000-0000-4000-8000-000000000006").
  reflexivity.
Defined.

Lemma maxOrder_ge (l : list status_types.Row) (s : status_types.Row) :
  In s l -> (status_types.display_order s <= StatusTypeManagementForm.maxOrder l)%Z.
Proof.
  unfold StatusTypeManagementForm.maxOrder.
  induction l as [|a t IH]; simpl; [contradiction|].
  intros [->|H]; [lia | specialize (IH H); lia].
Qed.

Lemma maxOrder_nonneg (l : list status_types.Row) :
  (0 <= StatusTypeManagementForm.maxOrder l)%Z.
Proof.
  unfold StatusTypeManagementForm.maxOrder. induction l; simpl; lia.
Qed.

Lemma insert_sorted_before_last {R : Type} (leb : R -> R -> bool) (a x : R)
    (l : list R) :
  leb a x = true ->
  Q.insert_sorted leb a (l ++ [x]) = Q.insert_sorted leb a l ++ [x].
Proof.
  intros H. induction l as [|y t IH]; simpl.
  - now rewrite H.
  - destruct (leb a y); [reflexivity | now rewrite IH].
Qed.

Lemma sort_rows_last {R : Type} (leb : R -> R -> bool) (x : R) (l : list R) :
  (forall a, In a l -> leb a x = true) ->
  Q.sort_rows leb (l ++ [x]) = Q.sort_rows leb l ++ [x].
Proof.
  induction l as [|a t IH]; simpl; intros H; [reflexivity|].
  rewrite IH by (intros; apply H; now right).
  apply insert_sorted_before_last, H. now left.
Qed.

(** X14. The display order of a new status type is one more than the
    largest on the screen (and at least 1): when the admin's screen is up to
    date, the new type is listed after all the others. *)
Theorem new_status_type_listed_last (db : Database) (user : option uuid)
    (formData : StatusTypeManagementForm.FormData) (fresh : uuid) (db' : Database) :
  let statusTypes := StatusTypeManagementForm.loadStatusTypes db user in
  let row := StatusTypeManagementForm.new_row user formData statusTypes fresh in
  StatusTypeManagementForm.handleSubmit db user None formData statusTypes fresh
    = inr db' ->
  (1 <= status_types.display_order row)%Z /\
  (forall s, In s (status_types db) ->
             (status_types.display_order s < status_types.display_order row)%Z) /\
  StatusTypeManagementForm.loadStatusTypes db' user = statusTypes ++ [row].
Proof.
  intros statusTypes row.
  unfold StatusTypeManagementForm.handleSubmit, insert_status_type,
    policy.status_types_write.
  destruct (has_role db user [admin]) eqn:Hadm; cbn [negb]; [|discriminate].
  match goal with
  | |- (if ?c then _ else _) = _ -> _ => destruct c; [discriminate|]
  end.
  intros H; injection H as <-.
  assert (Hvis : forall d s,
             profiles d = profiles db -> policy.status_types_select d user s = true).
  { intros d s Hp. unfold policy.status_types_select, has_role.
    rewrite (role_of_profiles db d user Hp). fold (has_role db user [admin]).
    rewrite Hadm. destruct user; simpl; [|reflexivity].
    now rewrite !orb_true_r. }
  assert (Hall : statusTypes = Q.sort_rows by_display_order (status_types db)).
  { unfold statusTypes, StatusTypeManagementForm.loadStatusTypes, Q.run; simpl.
    rewrite (filter_all (policy.status_types_select db user))
      by (intros; now apply Hvis).
    now rewrite (filter_all (fun _ => true)) by reflexivity. }
  assert (Hlt : forall s, In s (status_types db) ->
                  (status_types.display_order s < status_types.display_order row)%Z).
  { intros s Hs. simpl.
    assert (In s statusTypes)
      by (rewrite Hall; eapply Permutation_in;
          [apply Permutation_sym, sort_rows_perm | exact Hs]).
    pose proof (maxOrder_ge statusTypes s H). lia. }
  split; [simpl; pose proof (maxOrder_nonneg statusTypes); lia|].
  split; [exact Hlt|].
  unfold StatusTypeManagementForm.loadStatusTypes, Q.run; simpl.
  rewrite (filter_all (policy.status_types_select _ user))
    by (intros; now apply Hvis).
  rewrite (filter_all (fun _ => true)) by reflexivity.
  rewrite sort_rows_last; [rewrite <- Hall; reflexivity|].
  intros a Ha. unfold by_display_order. apply Z.leb_le.
  change (status_types.display_order a <= status_types.display_order row)%Z.
  specialize (Hlt a Ha). lia.
Qed.

Lemma new_status_type_listed_last_witness :
  let form := {| StatusTypeManagementForm.name := "Cleaning";
                 StatusTypeManagementForm.color := "orange" |} in
  let loaded := StatusTypeManagementForm.loadStatusTypes demo.db (Some demo.u_admin) in
  let row := StatusTypeManagementForm.new_row (Some demo.u_admin) form loaded
               "05000000-0000-4000-8000-000000000006" in
  status_types.display_order row = 6%Z /\
  StatusTypeManagementForm.loadStatusTypes
    (with_status_types demo.db [demo.Running; demo.Calibration; row])
    (Some demo.u_admin)
  = [demo.Running; demo.Calibration; row].
Proof.
  split; [reflexivity|].
  exact (proj2 (proj2
    (new_status_type_listed_last demo.db (Some demo.u_admin)
       {| StatusTypeManagementForm.name := "Cleaning";
          StatusTypeManagementForm.color := "orange" |}
       "05000000-0000-4000-8000-000000000006"
       (with_status_types demo.db
          [demo.Running; demo.Calibration;
           StatusTypeManagementForm.new_row (Some demo.u_admin)
             {| StatusTypeManagementForm.name := "Cleaning";
                StatusTypeManagementForm.color := "orange" |}
             (StatusTypeManagementForm.loadStatusTypes demo.db (Some demo.u_admin))
             "05000000-0000-4000-8000-000000000006"])
       Logic.eq_refl))).
Defined.

Lemma with_departments_same (db : Database) :
  with_departments db (departments db) = db.
Proof. destruct db; reflexivity. Qed.

(** X15. A department added through the form and deleted again before any
    machine or leader row refers to it leaves the database exactly as it was. *)
Theorem department_add_then_delete (db : Database) (user : option uuid)
    (newDeptName newDeptDesc : string) (fresh : uuid) (db' : Database) :
  DepartmentManagementForm.blank newDeptName = false ->
  DepartmentManagementForm.handleAddDepartment db user newDeptName newDeptDesc fresh
    = inr db' ->
  (forall m, In m (machines db) -> machines.department_id m <> Some fresh) ->
  (forall l, In l (department_leaders db) ->
             department_leaders.department_id l <> fresh) ->
  DepartmentManagement.handleDeleteDepartment db' user fresh = inr db.
Proof.
  intros Hname Hadd Hm Hl.
  unfold DepartmentManagementForm.handleAddDepartment in Hadd.
  rewrite Hname in Hadd. unfold insert_department in Hadd.
  set (row := {| departments.id := fresh; departments.name := newDeptName;
                 departments.description := newDeptDesc;
                 departments.created_by := user |}) in *.
  destruct (policy.departments_write db user row) eqn:Hadm; cbn [negb] in Hadd;
    [|discriminate].
  destruct (mem (departments.id row) (map departments.id (departments db)))
    eqn:Hfresh; cbn [orb] in Hadd; [discriminate|].
  match type of Hadd with
  | (if ?c then _ else _) = _ => destruct c; [discriminate|]
  end.
  injection Hadd as <-.
  unfold policy.departments_write in Hadm.
  unfold DepartmentManagement.handleDeleteDepartment, delete_department; cbv zeta.
  unfold policy.departments_write.
  assert (Hr : has_role (with_departments db (departments db ++ [row])) user [admin]
               = true) by exact Hadm.
  rewrite Hr. cbn [andb].
  assert (Hex : existsb (fun d => String.eqb (departments.id d) fresh)
                        (departments (with_departments db (departments db ++ [row])))
                = true).
  { apply existsb_exists. exists row. split.
    - simpl. apply in_or_app. right. now left.
    - apply String.eqb_refl. }
  rewrite Hex.
  assert (Hno : existsb (fun m => option_eqb (machines.department_id m) fresh)
                        (machines (with_departments db (departments db ++ [row])))
                = false).
  { apply existsb_none. intros m Hin. simpl in Hin.
    specialize (Hm m Hin). destruct (machines.department_id m) as [d|];
      [|reflexivity].
    simpl. destruct (String.eqb d fresh) eqn:E; [|reflexivity].
    apply String.eqb_eq in E. subst d. now contradiction Hm. }
  rewrite Hno. f_equal. simpl departments. simpl department_leaders.
  rewrite filter_drop_last.
  - rewrite filter_all.
    + destruct db; reflexivity.
    + intros l Hin. apply negb_true_iff.
      destruct (String.eqb (department_leaders.department_id l) fresh) eqn:E;
        [|reflexivity].
      apply String.eqb_eq in E. now contradiction (Hl l Hin).
  - intros d Hd. apply negb_true_iff.
    apply (mem_false_neq _ _ _ Hfresh), in_map, Hd.
  - apply negb_false_iff, String.eqb_refl.
Qed.

Lemma department_add_then_delete_witness :
  DepartmentManagementForm.blank "Tool room" = false /\
  DepartmentManagementForm.handleAddDepartment demo.db (Some demo.u_admin)
    "Tool room" "" "0d000000-0000-4000-8000-000000000004"
  = inr (with_departments demo.db
           (departments demo.db ++
            [{| departments.id := "0d000000-0000-4000-8000-000000000004";
                departments.name := "Tool room"; departments.description := "";
                departments.created_by := Some demo.u_admin |}])) /\
  DepartmentManagement.handleDeleteDepartment
    (with_departments demo.db
       (departments demo.db ++
        [{| departments.id := "0d000000-0000-4000-8000-000000000004";
            departments.name := "Tool room"; departments.description := "";
            departments.created_by := Some demo.u_admin |}]))
    (Some demo.u_admin) "0d000000-0000-4000-8000-000000000004" = inr demo.db.
Proof.
  split; [reflexivity|]. split; [reflexivity|].
  apply (department_add_then_delete demo.db (Some demo.u_admin) "Tool room" ""
           "0d000000-0000-4000-8000-000000000004").
  - reflexivity.
  - reflexivity.
  - intros m [<-|[<-|[]]]; discriminate.
  - intros l [<-|[<-|[<-|[]]]]; discriminate.
Defined.




(** ** What a caller who is no admin cannot touch *)

Lemma existsb_const_false {R : Type} (l : list R) :
  existsb (fun _ => false) l = false.
Proof. apply existsb_none. reflexivity. Qed.

Lemma filter_const_true {R : Type} (l : list R) : filter (fun _ => true) l = l.
Proof. apply filter_all. reflexivity. Qed.

(** X17. Whatever statement a caller who is not an admin issues, the
    departments, the leader assignments and the status types stay exactly as
    they are. *)
Theorem non_admin_changes_no_catalog (db : Database) (uid : option uuid)
    (s : Statement) :
  role_of db uid <> Some admin ->
  let db' := state_after db (exec db uid s) in
  departments db' = departments db /\
  department_leaders db' = department_leaders db /\
  status_types db' = status_types db.
Proof.
  intros Hna.
  assert (Hr : has_role db uid [admin] = false).
  { apply not_true_is_false. intros H. apply Hna, has_role_admin, H. }
  destruct s; cbn [exec]; cbv zeta;
    match goal with
    | |- context [state_after _ (?f _ _ _)] => unfold f
    | |- context [state_after _ (?f _ _ _ _)] => unfold f
    | |- context [state_after _ (?f _ _ _ _ _)] => unfold f
    end; cbv zeta;
    unfold policy.departments_write, policy.department_leaders_write,
      policy.status_types_write, policy.status_types_delete_using;
    rewrite ?Hr; cbn [negb andb];
    rewrite ?existsb_const_false, ?filter_const_true, ?map_id;
    repeat match goal with
           | |- context [if ?c then _ else _] => destruct c eqn:?
           end;
    cbn [state_after]; try (repeat split; reflexivity);
    destruct db; repeat split; reflexivity.
Qed.

Lemma non_admin_changes_no_catalog_witness :
  role_of demo.db (Some demo.u_lead) <> Some admin /\
  status_types
    (state_after demo.db
       (exec demo.db (Some demo.u_lead)
             (DeleteStatusType (status_types.id demo.Calibration))))
  = status_types demo.db.
Proof.
  assert (Hna : role_of demo.db (Some demo.u_lead) <> Some admin) by discriminate.
  split; [exact Hna|].
  exact (proj2 (proj2
    (non_admin_changes_no_catalog demo.db (Some demo.u_lead)
       (DeleteStatusType (status_types.id demo.Calibration)) Hna))).
Defined.

(** ** Referential integrity of the history *)

Lemma mem_In (x : uuid) (l : list uuid) : mem x l = true <-> In x l.
Proof.
  unfold mem. rewrite existsb_exists. split.
  - intros [y [Hy E]]. apply String.eqb_eq in E. now subst.
  - intros H. exists x. split; [exact H | apply String.eqb_refl].
Qed.

(** X18. If every history row refers to a stored machine, this is still so
    after any statement by any caller: an INSERT checks the reference, and
    deleting a machine takes its history rows along. *)
Theorem history_refers_to_machines_kept (db : Database) (uid : option uuid)
    (s : Statement) :
  history_refers_to_machines db = true ->
  history_refers_to_machines (state_after db (exec db uid s)) = true.
Proof.
  intros H.
  destruct s; cbn [exec];
    try solve [unfold_statement; cbn [state_after]; exact H].
  - (* InsertMachine *)
    unfold insert_machine.
    repeat match goal with
           | |- context [if ?c then _ else _] => destruct c eqn:?
           end; cbn [state_after]; try exact H.
    unfold history_refers_to_machines in *; simpl.
    rewrite forallb_forall in *. intros h Hh. specialize (H h Hh).
    apply mem_In. apply mem_In in H. rewrite map_app. apply in_or_app. now left.
  - (* UpdateMachineStatus *)
    unfold update_machine_status; cbv zeta.
    repeat match goal with
           | |- context [if negb ?c then _ else _] => destruct c eqn:?; cbn [negb]
           | |- context [if ?c && ?d then _ else _] => destruct (c && d) eqn:?
           end; cbn [state_after]; try exact H.
    unfold history_refers_to_machines in *; simpl.
    rewrite map_map.
    erewrite map_ext; [exact H|].
    intros m.
    match goal with
    | |- context [if ?c then _ else _] => destruct c
    end; reflexivity.
  - (* DeleteMachine *)
    unfold delete_machine; cbv zeta.
    match goal with
    | |- context [if ?c then _ else _] => destruct c eqn:E
    end; cbn [state_after]; [|exact H].
    unfold history_refers_to_machines in *; simpl.
    rewrite forallb_forall in *. intros h Hh.
    apply filter_In in Hh. destruct Hh as [Hh Hne].
    specialize (H h Hh). apply mem_In. apply mem_In in H.
    apply in_map_iff in H. destruct H as [m [Hid Hm]].
    apply in_map_iff. exists m. split; [exact Hid|].
    apply filter_In. split; [exact Hm|].
    rewrite Hid. apply negb_true_iff in Hne. rewrite Hne.
    now rewrite andb_false_r.
  - (* InsertStatusHistory *)
    unfold insert_status_history.
    destruct (negb (policy.status_history_insert_check db uid h)); [exact H|].
    destruct (status_history_constraints_violated db h) eqn:Hc; [exact H|].
    cbn [state_after]. unfold history_refers_to_machines in *; simpl.
    rewrite forallb_app, H; simpl.
    unfold status_history_constraints_violated in Hc.
    apply orb_false_iff in Hc. destruct Hc as [Hc _].
    apply orb_false_iff in Hc. destruct Hc as [_ Hc].
    apply negb_false_iff in Hc. now rewrite Hc.
  - rewrite update_status_history_noop. exact H.
  - rewrite delete_status_history_noop. exact H.
Qed.

Lemma history_refers_to_machines_kept_witness :
  history_refers_to_machines demo.db = true /\
  history_refers_to_machines
    (state_after demo.db (exec demo.db (Some demo.u_admin) (DeleteMachine demo.m_100)))
  = true.
Proof.
  split; [reflexivity|].
  apply (history_refers_to_machines_kept demo.db (Some demo.u_admin)
           (DeleteMachine demo.m_100)).
  reflexivity.
Defined.

Lemma new_history_rows_attributed_witness :
  In demo.by_operator
     (status_history
        (state_after demo.db
           (exec demo.db (Some demo.u_op) (InsertStatusHistory demo.by_operator)))) /\
  ~ In demo.by_operator (status_history demo.db) /\
  Some demo.u_op = Some (status_history.changed_by demo.by_operator).
Proof.
  assert (Hin : In demo.by_operator
                   (status_history
                      (state_after demo.db
                         (exec demo.db (Some demo.u_op)
                               (InsertStatusHistory demo.by_operator)))))
    by (right; right; left; reflexivity).
  assert (Hnew : ~ In demo.by_operator (status_history demo.db))
    by (intros [H|[H|[]]]; discriminate H).
  split; [exact Hin|]. split; [exact Hnew|].
  exact (new_history_rows_attributed demo.db (Some demo.u_op)
           (InsertStatusHistory demo.by_operator) demo.by_operator Hin Hnew).
Defined.

(** ** The departments offered by the machine form *)

(** X20. Every department the "add machine" form offers to a team leader,
    once the screen has loaded, is one the server lets that team leader put a
    machine in: submitting the form with it is never refused for lack of
    authority.  An admin is offered every department. *)
Theorem offered_department_is_allowed (db : Database) (u : uuid)
    (dept : departments.Row) (formData : MachineManagement.FormData)
    (fresh : uuid) (now : timestamptz) :
  role_of db (Some u) = Some team_leader ->
  In dept (MachineManagementView.availableDepartments db (Some u)
             (MachineManagement.loadData db (Some u))) ->
  MachineManagement.department_id formData = departments.id dept ->
  departments.id dept <> "" ->
  MachineManagement.handleSubmit db (Some u) formData fresh now
  <> inl AuthorizationDenied.
Proof.
  intros Hrole Hin Hform Hne.
  unfold MachineManagementView.availableDepartments in Hin. rewrite Hrole in Hin.
  apply filter_In in Hin. destruct Hin as [_ Hin].
  unfold MachineManagement.loadData in Hin; cbv zeta in Hin.
  rewrite Hrole in Hin. cbn [MachineManagement.teamLeaderDepartments] in Hin.
  apply mem_In, in_map_iff in Hin. destruct Hin as [l [Hd Hl]].
  apply run_In in Hl; [|reflexivity]. destruct Hl as [Hl [_ Hu]].
  simpl in Hu. apply String.eqb_eq in Hu.
  assert (Hleads : leads_department_of db (Some u) (Some (departments.id dept)) = true).
  { apply leads_department_of_iff. exists l.
    split; [exact Hl|]. split; [symmetry; exact Hu | rewrite Hd; reflexivity]. }
  unfold MachineManagement.handleSubmit, insert_machine,
    policy.machines_insert_check, has_role.
  rewrite Hrole. cbn [machines.department_id existsb Role_eqb orb andb].
  rewrite Hform.
  destruct (departments.id dept) as [|c r] eqn:E; [contradiction Hne; reflexivity|].
  match goal with
  | |- (if negb ?c then _ else _) <> _ =>
      assert (Hc : c = true) by exact Hleads; rewrite Hc
  end. cbn [negb].
  match goal with
  | |- (if ?c then _ else _) <> _ => destruct c; discriminate
  end.
Qed.

Lemma offered_department_is_allowed_witness :
  let qc := {| departments.id := demo.d_qc; departments.name := "QC";
               departments.description := "";
               departments.created_by := Some demo.u_admin |} in
  let form := {| MachineManagement.machine_code := "M101";
                 MachineManagement.machine_name := "Caliper";
                 MachineManagement.description := "";
                 MachineManagement.department_id := demo.d_qc |} in
  map departments.name
      (MachineManagementView.availableDepartments demo.db (Some demo.u_lead)
         (MachineManagement.loadData demo.db (Some demo.u_lead))) = ["Lab"; "QC"] /\
  MachineManagement.handleSubmit demo.db (Some demo.u_lead) form
    "0e000000-0000-4000-8000-000000000101" 60%Z <> inl AuthorizationDenied.
Proof.
  split; [reflexivity|].
  apply (offered_department_is_allowed demo.db demo.u_lead
           {| departments.id := demo.d_qc; departments.name := "QC";
              departments.description := "";
              departments.created_by := Some demo.u_admin |}).
  - reflexivity.
  - right; left; reflexivity.
  - reflexivity.
  - discriminate.
Defined.

(** ** The previous_status backfill *)









(** ** Deleting a machine *)

(** X22. When an admin deletes a stored machine, the machine, its operator
    assignments and its history rows are gone, and every row of every other
    machine is still there. *)
Theorem machine_delete_cascades (db : Database) (uid : option uuid) (id : uuid) :
  role_of db uid = Some admin ->
  In id (map machines.id (machines db)) ->
  exists db',
    delete_machine db uid id = inr db' /\
    (forall m, In m (machines db') <-> In m (machines db) /\ machines.id m <> id) /\
    (forall a, In a (machine_operators db') <->
               In a (machine_operators db) /\ machine_operators.machine_id a <> id) /\
    (forall h, In h (status_history db') <->
               In h (status_history db) /\ status_history.machine_id h <> id).
Proof.
  intros Hadm Hin. apply has_role_admin in Hadm.
  unfold delete_machine, policy.machines_delete_using; cbv zeta. rewrite Hadm.
  assert (Hex : existsb (fun m => true && String.eqb (machines.id m) id) (machines db)
                = true).
  { apply in_map_iff in Hin. destruct Hin as [m [Hid Hm]].
    apply existsb_exists. exists m. split; [exact Hm|].
    rewrite Hid. apply String.eqb_refl. }
  rewrite Hex. eexists. split; [reflexivity|]. simpl.
  assert (Hneq : forall x, negb (String.eqb x id) = true <-> x <> id).
  { intros x. rewrite negb_true_iff. split.
    - intros E ->. rewrite String.eqb_refl in E. discriminate.
    - intros Hne. destruct (String.eqb x id) eqn:E; [|reflexivity].
      apply String.eqb_eq in E. contradiction. }
  repeat split; intros; rewrite filter_In, Hneq in *; tauto.
Qed.

Lemma machine_delete_cascades_witness :
  exists db',
    delete_machine demo.db (Some demo.u_admin) demo.m_100 = inr db' /\
    machines db' = [demo.M200] /\
    machine_operators db' = [] /\
    status_history db' = [demo.h2].
Proof.
  destruct (machine_delete_cascades demo.db (Some demo.u_admin) demo.m_100
              Logic.eq_refl (or_introl Logic.eq_refl)) as [db' [Hdel _]].
  exists db'. split; [exact Hdel|].
  injection Hdel as <-. repeat split; reflexivity.
Defined.

(** ** The other copy of the machine form *)

(** X23. In the other copy of the management screen a team leader is
    offered a department only if the caller leads it and it already holds a
    machine: the first machine of a department cannot be added from there.
    (No machine is stored under the all-zero id.) *)
Theorem offered_department_holds_machine (db : Database) (u : uuid)
    (dept : departments.Row) :
  sentinel_free db = true ->
  role_of db (Some u) = Some team_leader ->
  In dept (MachineManagement2.availableDepartments db (Some u)
             (fst (MachineManagement2.loadData db (Some u)))
             (snd (MachineManagement2.loadData db (Some u)))) ->
  leads_department_of db (Some u) (Some (departments.id dept)) = true /\
  exists m, In m (machines db)
            /\ machines.department_id m = Some (departments.id dept).
Proof.
  intros Hfree Hrole Hin.
  unfold MachineManagement2.availableDepartments in Hin. rewrite Hrole in Hin.
  apply filter_In in Hin. destruct Hin as [_ Hin].
  apply existsb_exists in Hin. destruct Hin as [m [Hm Hd]].
  assert (Hdept : machines.department_id m = Some (departments.id dept)).
  { destruct (machines.department_id m) as [d|]; [|discriminate].
    simpl in Hd. apply String.eqb_eq in Hd. now subst. }
  unfold MachineManagement2.loadData in Hm; cbv zeta in Hm.
  rewrite Hrole in Hm. cbn [snd] in Hm.
  set (myDepts := Q.run _ (department_leaders db) _) in Hm.
  destruct (0 <? length (map department_leaders.department_id myDepts))%nat.
  - apply run_In in Hm; [|reflexivity]. destruct Hm as [Hm [_ Hw]].
    simpl in Hw. apply existsb_exists in Hw. destruct Hw as [d [Hd' Heq]].
    rewrite Hdept in Heq. simpl in Heq. apply String.eqb_eq in Heq. subst d.
    apply in_map_iff in Hd'. destruct Hd' as [l [Hld Hl]].
    apply run_In in Hl; [|reflexivity]. destruct Hl as [Hl [_ Hu]].
    simpl in Hu. apply String.eqb_eq in Hu. split.
    + apply leads_department_of_iff. exists l.
      split; [exact Hl|]. split; [symmetry; exact Hu | now rewrite Hld].
    + exists m. now split.
  - apply run_In in Hm; [|reflexivity]. destruct Hm as [Hm [_ Hw]].
    simpl in Hw. exfalso.
    apply andb_true_iff in Hfree. destruct Hfree as [Hfree _].
    rewrite forallb_forall in Hfree. specialize (Hfree m Hm).
    rewrite Hw in Hfree. discriminate.
Qed.

Lemma offered_department_holds_machine_witness :
  map departments.name
      (MachineManagement2.availableDepartments demo.db (Some demo.u_lead)
         (fst (MachineManagement2.loadData demo.db (Some demo.u_lead)))
         (snd (MachineManagement2.loadData demo.db (Some demo.u_lead)))) = ["QC"] /\
  leads_department_of demo.db (Some demo.u_lead) (Some demo.d_qc) = true /\
  exists m, In m (machines demo.db)
            /\ machines.department_id m = Some demo.d_qc.
Proof.
  split; [reflexivity|].
  apply (offered_department_holds_machine demo.db demo.u_lead
           {| departments.id := demo.d_qc; departments.name := "QC";
              departments.description := "";
              departments.created_by := Some demo.u_admin |}).
  - reflexivity.
  - reflexivity.
  - left; reflexivity.
Defined.
